(** * AgentAudit MCP server: a shallow embedding of [src/index.ts]

    The server is a handful of functions over JSON values and strings.  The
    embedding keeps the shape of the TypeScript source:

    - a JavaScript value coming from [JSON.parse] is a [json]; a property that
      may be missing is an [option json], [None] standing for [undefined];
    - a function that may throw returns a [result]; [try]/[catch] is
      [try_catch];
    - the built-ins whose behaviour is fixed by the language and not by this
      repository ([JSON.parse], the Unicode case mappings, [Date], the
      string-to-number conversion, [encodeURIComponent], [path.join]) are the
      fields of the class [Builtins]; the world outside the process (network,
      file system, platform) is the record [Env];
    - numbers are integers ([Z]): every number the server handles is a
      score, a count or a status code.  Strings are [string]s, an element
      standing for one character of the JavaScript string; the literals of
      the source that hold characters outside ASCII are kept as their UTF-8
      bytes. *)

From Stdlib Require Import ZArith List String Ascii Bool Lia.
From Stdlib Require Import Permutation Sorted.
Import ListNotations.
Set Warnings "-register-all".
Open Scope string_scope.
Open Scope Z_scope.

(** ** Results of computations that may throw *)

Inductive result (A : Type) : Type :=
| Return (a : A)
| Throw (message : string).
Arguments Return {A} a.
Arguments Throw {A} message.

Definition bind {A B} (m : result A) (k : A -> result B) : result B :=
  match m with
  | Return a => k a
  | Throw e => Throw e
  end.

Notation "x <- m ;; k" := (bind m (fun x => k))
  (at level 61, m at next level, right associativity).

(** [try { body } catch (e) { handler(e.message) }] *)
Definition try_catch {A} (body : result A) (handler : string -> result A)
  : result A :=
  match body with
  | Return a => Return a
  | Throw e => handler e
  end.

Fixpoint mapM {A B} (f : A -> result B) (l : list A) : result (list B) :=
  match l with
  | [] => Return []
  | x :: l' => y <- f x ;; ys <- mapM f l' ;; Return (y :: ys)
  end.

(** [Array.prototype.filter] with a callback that may throw. *)
Fixpoint filterM {A} (f : A -> result bool) (l : list A) : result (list A) :=
  match l with
  | [] => Return []
  | x :: l' =>
      b <- f x ;; ys <- filterM f l' ;; Return (if b then x :: ys else ys)
  end.

(** ** JSON values *)

Inductive json : Type :=
| JNull
| JBool (b : bool)
| JNum (n : Z)
| JStr (s : string)
| JArr (items : list json)
| JObj (fields : list (string * json)).

(** The own properties of an object are kept in the order in which
    [Object.entries] lists them, each key once. *)

Fixpoint assoc (k : string) (fields : list (string * json)) : option json :=
  match fields with
  | [] => None
  | (k', v) :: rest => if String.eqb k k' then Some v else assoc k rest
  end.

(** ** Strings *)

(** [s.startsWith(p)] *)
Fixpoint startsWith (s p : string) : bool :=
  match p with
  | EmptyString => true
  | String a p' =>
      match s with
      | EmptyString => false
      | String b s' => Ascii.eqb a b && startsWith s' p'
      end
  end.

(** [s.slice(0, n)] for [n >= 0]. *)
Definition slice_to (n : nat) (s : string) : string := String.substring 0 n s.

(** [s.includes(q)] *)
Fixpoint includes (s q : string) : bool :=
  startsWith s q ||
  match s with
  | EmptyString => false
  | String _ s' => includes s' q
  end.

(** [lines.join(sep)] *)
Fixpoint join (sep : string) (l : list string) : string :=
  match l with
  | [] => ""
  | [x] => x
  | x :: l' => x ++ sep ++ join sep l'
  end.

(** [s.split(c)[0]]: the part of [s] before the first [c]. *)
Fixpoint before_first (c : ascii) (s : string) : string :=
  match s with
  | EmptyString => EmptyString
  | String a s' => if Ascii.eqb a c then EmptyString else String a (before_first c s')
  end.

Definition LF : string := String (ascii_of_nat 10) EmptyString.

(** Decimal rendering of an integer, as [String(n)] does (JavaScript turns
    to exponent notation only from 10^21 on). *)
Definition digit (n : nat) : ascii := ascii_of_nat (48 + n).

Fixpoint digits_fuel (fuel : nat) (n : nat) (acc : string) : string :=
  match fuel with
  | O => acc
  | S fuel' =>
      let acc' := String (digit (n mod 10)) acc in
      match (n / 10)%nat with
      | O => acc'
      | q => digits_fuel fuel' q acc'
      end
  end.

Definition string_of_nat (n : nat) : string := digits_fuel (S n) n "".

Definition string_of_Z (z : Z) : string :=
  match z with
  | Z0 => "0"
  | Zpos _ => string_of_nat (Z.to_nat z)
  | Zneg _ => "-" ++ string_of_nat (Z.to_nat (- z))
  end.

(** ** The language's built-ins and the outside world *)

(** What the JavaScript runtime provides.  [StringToNumber] returns [None]
    for [NaN] (a string that reads as a fraction or an infinity has no place
    in an integer model); [Date_toISOString v] is
    [new Date(v).toISOString()], which throws a [RangeError] on an invalid
    date.  The one law the proofs use: the empty string has no letters to
    map. *)
Class Builtins : Type := {
  JSON_parse : string -> result json;
  toLowerCase : string -> string;
  toUpperCase : string -> string;
  StringToNumber : string -> option Z;
  Date_toISOString : json -> result string;
  encodeURIComponent : string -> result string;
  path_join : list string -> string;
  toLowerCase_empty : toLowerCase "" = ""
}.

(** What one [fetch] of a URL comes to: the request (or the reading of the
    body) is rejected with a message, which covers the ten-second abort, or a
    response arrives with a status code and a body text. *)
Inductive fetch_outcome : Type :=
| FetchReject (message : string)
| Response (status : Z) (text : string).

Record Env : Type := {
  fetch : string -> fetch_outcome;
  existsSync : string -> bool;
  readFileSync : string -> result string;
  platform : string;
  getenv : string -> option string
}.

(** [res.ok]: the status is in the range 200-299. *)
Definition res_ok (status : Z) : bool := (200 <=? status) && (status <=? 299).

(** ** JavaScript operators on JSON values *)

(** [v ?? d] *)
Definition coalesce (v : option json) (d : json) : json :=
  match v with
  | None | Some JNull => d
  | Some x => x
  end.

(** Truthiness, as [if (v)] and [!v] test it. *)
Definition truthy (v : json) : bool :=
  match v with
  | JNull => false
  | JBool b => b
  | JNum n => negb (n =? 0)
  | JStr s => negb (String.eqb s "")
  | JArr _ | JObj _ => true
  end.

(** [String(v)], which is what a template literal applies to [${v}]. *)
Fixpoint ToString (v : json) : string :=
  match v with
  | JNull => "null"
  | JBool true => "true"
  | JBool false => "false"
  | JNum n => string_of_Z n
  | JStr s => s
  | JArr items =>
      join "," (map (fun x => match x with JNull => "" | _ => ToString x end) items)
  | JObj _ => "[object Object]"
  end.

Definition ToString_opt (v : option json) : string :=
  match v with
  | None => "undefined"
  | Some x => ToString x
  end.

Section Operators.
Context {B : Builtins}.

(** [Number(v)]; [None] is [NaN]. *)
Definition ToNumber (v : option json) : option Z :=
  match v with
  | None => None
  | Some JNull => Some 0
  | Some (JBool b) => Some (if b then 1 else 0)
  | Some (JNum n) => Some n
  | Some (JStr s) => StringToNumber s
  | Some (JArr items) => StringToNumber (ToString (JArr items))
  | Some (JObj _) => None
  end.

(** [v >= n] for a number [n]: false as soon as [v] converts to [NaN]. *)
Definition js_ge (v : option json) (n : Z) : bool :=
  match ToNumber v with
  | Some z => n <=? z
  | None => false
  end.

(** [a - b]; [None] is [NaN]. *)
Definition js_sub (a b : json) : option Z :=
  match ToNumber (Some a), ToNumber (Some b) with
  | Some x, Some y => Some (x - y)
  | _, _ => None
  end.

(** A thrown [TypeError]; the message is what [e.message] reads. *)
Definition TypeError {A} (what : string) : result A := Throw what.

(** [v.k] for the property names the source reads.  None of them is an index
    or lives on a prototype, so only an object can have one; reading a
    property of [null] throws. *)
Definition get (v : json) (k : string) : result (option json) :=
  match v with
  | JNull => TypeError ("Cannot read properties of null (reading '" ++ k ++ "')")
  | JObj fields => Return (assoc k fields)
  | _ => Return None
  end.

(** [v.toLowerCase()], [v.toUpperCase()], [v.startsWith(p)]: only a string
    has these methods. *)
Definition call_toLowerCase (v : json) : result string :=
  match v with
  | JStr s => Return (toLowerCase s)
  | _ => TypeError "toLowerCase is not a function"
  end.

Definition call_toUpperCase (v : json) : result string :=
  match v with
  | JStr s => Return (toUpperCase s)
  | _ => TypeError "toUpperCase is not a function"
  end.

(** A value on which [.startsWith] can be called is a string. *)
Definition as_string_receiver (v : json) : result string :=
  match v with
  | JStr s => Return s
  | _ => TypeError "startsWith is not a function"
  end.

(** [for (const x of v)] *)
Definition iterate (v : json) : result (list json) :=
  match v with
  | JArr items => Return items
  | JStr s => Return (map (fun c => JStr (String c "")) (list_ascii_of_string s))
  | _ => TypeError "args is not iterable"
  end.

Fixpoint indexed {A} (i : nat) (l : list A) : list (string * A) :=
  match l with
  | [] => []
  | x :: l' => (string_of_nat i, x) :: indexed (S i) l'
  end.

(** [Object.entries(v)] *)
Definition Object_entries (v : json) : result (list (string * json)) :=
  match v with
  | JObj fields => Return fields
  | JArr items => Return (indexed 0 items)
  | JStr s => Return (indexed 0 (map (fun c => JStr (String c "")) (list_ascii_of_string s)))
  | JNum _ | JBool _ => Return []
  | JNull => TypeError "Cannot convert undefined or null to object"
  end.

End Operators.

(** ** The server *)

Definition API_BASE : string := "https://www.agentaudit.dev/api".

Definition DQ : string := String (ascii_of_nat 34) EmptyString.

(** [interface SkillResult].  The fields built from the remote payload hold
    whatever JSON value the payload had; [error] is the optional member. *)
Record SkillResult : Type := {
  slug : json;
  display_name : json;
  trust_score : json;
  latest_risk_score : json;
  latest_result : json;
  total_findings : json;
  total_reports : json;
  scan_type : json;
  source_url : json;
  first_audited_at : json;
  last_audited_at : json;
  error : option string
}.

(** The record literal shared by the two failure returns of [fetchSkill]. *)
Definition failure_record (name verdict message : string) : SkillResult :=
  {| slug := JStr name; display_name := JStr name;
     trust_score := JNull; latest_risk_score := JNull;
     latest_result := JStr verdict;
     total_findings := JNum 0; total_reports := JNum 0;
     scan_type := JStr "unknown"; source_url := JNull;
     first_audited_at := JNull; last_audited_at := JNull;
     error := Some message |}.

(** [if (r.error)]: present and not the empty string. *)
Definition error_truthy (r : SkillResult) : bool :=
  match error r with
  | Some e => negb (String.eqb e "")
  | None => false
  end.

(** [${r.error}] *)
Definition error_text (r : SkillResult) : string :=
  match error r with
  | Some e => e
  | None => "undefined"
  end.

Definition looks_like_html (text : string) : bool :=
  startsWith text "<!DOCTYPE" || startsWith text "<html".

(** [/^[a-z@]/.test(arg)] *)
Definition test_lower_or_at (arg : string) : bool :=
  match arg with
  | EmptyString => false
  | String c _ =>
      let n := nat_of_ascii c in
      ((97 <=? n)%nat && (n <=? 122)%nat) || (n =? 64)%nat
  end.

(** [[...new Set(packages)]]: first occurrences, in order. *)
Fixpoint Set_values (seen : list string) (l : list string) : list string :=
  match l with
  | [] => []
  | x :: l' =>
      if existsb (String.eqb x) seen then Set_values seen l'
      else x :: Set_values (x :: seen) l'
  end.

(** [l.slice(0, end)] *)
Definition slice0 {A} (e : Z) (l : list A) : list A :=
  let len := Z.of_nat (List.length l) in
  firstn (Z.to_nat (if e <? 0 then Z.max (len + e) 0 else Z.min e len)) l.

(** [Array.prototype.sort(cmp)].  The sort is stable, so for a comparator that
    is a consistent ordering its result is the one stable sorted arrangement,
    which insertion from the right computes; a comparator result of [NaN]
    counts as 0.  For an inconsistent comparator the language leaves the
    order to the engine. *)
Definition goes_after (c : option Z) : bool :=
  match c with
  | Some z => 0 <? z
  | None => false
  end.

Fixpoint sort_insert {A} (cmp : A -> A -> option Z) (x : A) (l : list A) : list A :=
  match l with
  | [] => [x]
  | y :: l' => if goes_after (cmp x y) then y :: sort_insert cmp x l' else x :: l
  end.

Definition Array_sort {A} (cmp : A -> A -> option Z) (l : list A) : list A :=
  fold_right (sort_insert cmp) [] l.

Section Server.
Context {B : Builtins} (env : Env).

Definition apiFetch (url : string) : result json :=
  match fetch env url with
  | FetchReject message => Throw message
  | Response status text =>
      if negb (res_ok status) then
        if looks_like_html text then Return JNull
        else Throw ("HTTP " ++ string_of_Z status ++ ": " ++ slice_to 200 text)
      else
        if looks_like_html text then Return JNull
        else JSON_parse text
  end.

(** The call [apiFetch(`${API_BASE}/skills/${encodeURIComponent(name)}`)]. *)
Definition skill_request (name : string) : result json :=
  enc <- encodeURIComponent name ;;
  apiFetch (API_BASE ++ "/skills/" ++ enc).

Definition fetchSkill (name : string) : result SkillResult :=
  try_catch
    (data <- skill_request name ;;
     if negb (truthy data) then
       Return (failure_record name "unknown" "Package not found in AgentAudit database")
     else
       d_slug <- get data "slug" ;;
       d_display_name <- get data "display_name" ;;
       d_trust_score <- get data "trust_score" ;;
       d_latest_risk_score <- get data "latest_risk_score" ;;
       d_latest_result <- get data "latest_result" ;;
       d_total_findings <- get data "total_findings" ;;
       d_total_reports <- get data "total_reports" ;;
       d_scan_type <- get data "scan_type" ;;
       d_source_url <- get data "source_url" ;;
       d_first_audited_at <- get data "first_audited_at" ;;
       d_last_audited_at <- get data "last_audited_at" ;;
       Return {| slug := coalesce d_slug (JStr name);
                 display_name := coalesce d_display_name (JStr name);
                 trust_score := coalesce d_trust_score JNull;
                 latest_risk_score := coalesce d_latest_risk_score JNull;
                 latest_result := coalesce d_latest_result (JStr "unknown");
                 total_findings := coalesce d_total_findings (JNum 0);
                 total_reports := coalesce d_total_reports (JNum 0);
                 scan_type := coalesce d_scan_type (JStr "unknown");
                 source_url := coalesce d_source_url JNull;
                 first_audited_at := coalesce d_first_audited_at JNull;
                 last_audited_at := coalesce d_last_audited_at JNull;
                 error := None |})
    (fun message => Return (failure_record name "error" message)).

Definition glyph_unknown : string := "❓".
Definition glyph_high : string := "🔴".
Definition glyph_medium : string := "🟡".
Definition glyph_low : string := "🟢".

Definition riskEmoji (score : option json) : string :=
  match score with
  | Some JNull => glyph_unknown
  | _ =>
      if js_ge score 70 then glyph_high
      else if js_ge score 40 then glyph_medium
      else glyph_low
  end.

(** The array [lines] that [formatResult] builds before joining it. *)
Definition formatResult_lines (r : SkillResult) : result (list string) :=
  let header :=
    riskEmoji (Some (latest_risk_score r)) ++ " **" ++ ToString (display_name r)
      ++ "** (" ++ ToString (scan_type r) ++ ")" in
  if error_truthy r then
    Return [header; "  ⚠️ " ++ error_text r]
  else
    verdict <- call_toUpperCase (latest_result r) ;;
    let l1 := "  Trust Score: " ++ ToString (coalesce (Some (trust_score r)) (JStr "N/A")) ++ "/100" in
    let l2 := "  Risk Score: " ++ ToString (coalesce (Some (latest_risk_score r)) (JStr "N/A")) ++ "/100" in
    let l3 := "  Verdict: " ++ verdict in
    let l4 := "  Findings: " ++ ToString (total_findings r) ++ " (from "
                ++ ToString (total_reports r) ++ " audit"
                ++ match total_reports r with JNum 1 => "" | _ => "s" end ++ ")" in
    let source :=
      if truthy (source_url r) then ["  Source: " ++ ToString (source_url r)] else [] in
    audited <-
      (if truthy (last_audited_at r) then
         iso <- Date_toISOString (last_audited_at r) ;;
         Return ["  Last audited: " ++ before_first "T" iso]
       else Return []) ;;
    let details := "  Details: https://agentaudit.dev/packages/" ++ ToString (slug r) in
    Return ([header; l1; l2; l3; l4] ++ source ++ audited ++ [details])%list.

Definition formatResult (r : SkillResult) : result string :=
  lines <- formatResult_lines r ;; Return (join LF lines).

(** [a ?? b] on the optional strings of [process.env]. *)
Definition or_else (a : option string) (b : string) : string :=
  match a with
  | Some x => x
  | None => b
  end.

Definition getDefaultConfigPath : string :=
  let home := or_else (getenv env "HOME") (or_else (getenv env "USERPROFILE") "") in
  if String.eqb (platform env) "darwin" then
    path_join [home; "Library"; "Application Support"; "Claude"; "claude_desktop_config.json"]
  else if String.eqb (platform env) "win32" then
    path_join [or_else (getenv env "APPDATA") ""; "Claude"; "claude_desktop_config.json"]
  else
    path_join [home; ".config"; "claude"; "claude_desktop_config.json"].

(** The two nested tests on one launch argument. *)
Definition arg_is_candidate (arg : string) : bool :=
  (negb (startsWith arg "-") && negb (startsWith arg "/")
     && negb (startsWith arg ".") && test_lower_or_at arg)
  && (negb (String.eqb arg "-y") && negb (String.eqb arg "node")
        && negb (String.eqb arg "npx")).

(** The inner loop, [for (const arg of args)], pushing onto [packages]. *)
Fixpoint scan_args (args : list json) (packages : list string)
  : result (list string) :=
  match args with
  | [] => Return packages
  | arg :: rest =>
      a <- as_string_receiver arg ;;
      scan_args rest (if arg_is_candidate a then packages ++ [a] else packages)%list
  end.

(** The outer loop, [for (const [key, val] of Object.entries(servers))]. *)
Fixpoint scan_servers (entries : list (string * json)) (packages : list string)
  : result (list string) :=
  match entries with
  | [] => Return packages
  | (key, val) :: rest =>
      a <- get val "args" ;;
      args <- iterate (coalesce a (JArr [])) ;;
      packages' <- scan_args args packages ;;
      scan_servers rest (packages' ++ [key])%list
  end.

(** The array [packages] as it stands when the loops are over, before the
    [Set] removes duplicates. *)
Definition collectPackages (config : json) : result (list string) :=
  ms <- get config "mcpServers" ;;
  ms' <- get config "mcp_servers" ;;
  entries <- Object_entries (coalesce ms (coalesce ms' (JObj []))) ;;
  scan_servers entries [].

(** [extractPackagesFromConfig] from the text of the file on. *)
Definition extractPackagesFromText (raw : string) : result (list string) :=
  config <- JSON_parse raw ;;
  packages <- collectPackages config ;;
  Return (Set_values [] packages).

Definition extractPackagesFromConfig (configPath : string) : result (list string) :=
  raw <- readFileSync env configPath ;;
  extractPackagesFromText raw.

(** *** Tool handlers; each returns the text of its one content item. *)

Definition check_package (name : string) : result string :=
  r <- fetchSkill name ;; formatResult r.

(** The filter and the comparator of the [scan_config] handler. *)
Definition is_risky (r : SkillResult) : bool :=
  negb (error_truthy r)
  && js_ge (Some (coalesce (Some (latest_risk_score r)) (JNum 0))) 40.

Definition by_risk_desc (a b : SkillResult) : option Z :=
  js_sub (coalesce (Some (latest_risk_score b)) (JNum (-1)))
         (coalesce (Some (latest_risk_score a)) (JNum (-1))).

Definition scan_summary (resolved : string) (results risky : list SkillResult)
  : list string :=
  [ "🔍 Scanned " ++ resolved;
    "📦 " ++ string_of_nat (List.length results) ++ " packages checked | "
      ++ string_of_nat (List.length risky) ++ " with elevated risk" ++ LF ].

(** The handler from [Promise.all] on. *)
Definition scan_report (resolved : string) (packages : list string) : result string :=
  results <- mapM fetchSkill packages ;;
  let risky := filter is_risky results in
  let summary := scan_summary resolved results risky in
  let sorted := Array_sort by_risk_desc results in
  texts <- mapM formatResult sorted ;;
  Return (join (LF ++ LF) (summary ++ texts)%list).

Definition scan_config (path : option string) : result string :=
  let resolved := or_else path getDefaultConfigPath in
  if negb (existsSync env resolved) then
    Return ("❌ Config not found: " ++ resolved ++ LF ++ LF
              ++ "Try providing the path explicitly.")
  else
    match extractPackagesFromConfig resolved with
    | Throw message => Return ("❌ Failed to parse config: " ++ message)
    | Return packages =>
        if (List.length packages =? 0)%nat then Return "No packages found in config."
        else scan_report resolved packages
    end.

(** The callback of [all.filter] in the [search_packages] handler; [||] does
    not look at the display name once the slug matches. *)
Definition search_matches (q : string) (s : json) : result bool :=
  d_slug <- get s "slug" ;;
  l_slug <- call_toLowerCase (coalesce d_slug (JStr "")) ;;
  if includes l_slug q then Return true
  else
    d_name <- get s "display_name" ;;
    l_name <- call_toLowerCase (coalesce d_name (JStr "")) ;;
    Return (includes l_name q).

(** One result line of [search_packages]. *)
Definition search_line (m : json) : result string :=
  d_risk <- get m "latest_risk_score" ;;
  d_name <- get m "display_name" ;;
  d_slug <- get m "slug" ;;
  d_trust <- get m "trust_score" ;;
  d_result <- get m "latest_result" ;;
  verdict <- call_toUpperCase (coalesce d_result (JStr "?")) ;;
  let shown := match d_name with
               | None | Some JNull => d_slug
               | Some x => Some x
               end in
  Return (riskEmoji d_risk ++ " **" ++ ToString_opt shown ++ "** — Trust: "
            ++ ToString (coalesce d_trust (JStr "?")) ++ "/100, Risk: "
            ++ ToString (coalesce d_risk (JStr "?")) ++ "/100, Verdict: " ++ verdict).

Definition search_header (shown : nat) (query : string) (total : nat) : string :=
  "🔎 " ++ string_of_nat shown ++ " results for " ++ DQ ++ query ++ DQ ++ " ("
    ++ string_of_nat total ++ " total in database)" ++ LF.

Definition search_none (query : string) (total : nat) : string :=
  "No packages matching " ++ DQ ++ query ++ DQ
    ++ " found in AgentAudit database (" ++ string_of_nat total ++ " total packages).".

(** [limit ?? 10] *)
Definition limit_or_default (limit : option Z) : Z :=
  match limit with
  | Some n => n
  | None => 10
  end.

(** [matches]: the filtered list cut by [slice(0, limit ?? 10)]. *)
Definition search_select (all : list json) (query : string) (limit : option Z)
  : result (list json) :=
  let q := toLowerCase query in
  found <- filterM (search_matches q) all ;;
  Return (slice0 (limit_or_default limit) found).

Definition search_packages (query : string) (limit : option Z) : result string :=
  try_catch
    (all <- apiFetch (API_BASE ++ "/skills") ;;
     match all with
     | JArr items =>
         matches <- search_select items query limit ;;
         if (List.length matches =? 0)%nat then
           Return (search_none query (List.length items))
         else
           lines <- mapM search_line matches ;;
           Return (join LF (search_header (List.length matches) query (List.length items)
                              :: lines))
     | _ => Return "❌ Failed to fetch package list"
     end)
    (fun message => Return ("❌ Search failed: " ++ message)).

End Server.

(** ** A small runtime for evaluating the server on concrete inputs

    The theorems below hold for every [Builtins] and every [Env].  To run the
    functions on examples, [reference_builtins] implements the built-ins on
    the inputs the examples use: ASCII case mapping, JSON texts whose numbers
    are decimal integers and whose strings use the simple escapes, decimal
    integers for the string-to-number conversion, dates written
    [YYYY-MM-DD...], percent-encoding of bytes, and [path.join] on segments
    that need no normalisation. *)
Module Reference.

Definition lower_ascii (c : ascii) : ascii :=
  let n := nat_of_ascii c in
  if ((65 <=? n) && (n <=? 90))%nat then ascii_of_nat (n + 32) else c.

Definition upper_ascii (c : ascii) : ascii :=
  let n := nat_of_ascii c in
  if ((97 <=? n) && (n <=? 122))%nat then ascii_of_nat (n - 32) else c.

Fixpoint map_string (f : ascii -> ascii) (s : string) : string :=
  match s with
  | EmptyString => EmptyString
  | String c s' => String (f c) (map_string f s')
  end.

Definition is_digit (c : ascii) : bool :=
  let n := nat_of_ascii c in ((48 <=? n) && (n <=? 57))%nat.

Definition is_ws (c : ascii) : bool :=
  let n := nat_of_ascii c in
  ((n =? 32) || (n =? 9) || (n =? 10) || (n =? 13))%nat.

Fixpoint skip_ws (s : string) : string :=
  match s with
  | String c s' => if is_ws c then skip_ws s' else s
  | EmptyString => s
  end.

(** Reads a run of digits; the value read so far is [acc]. *)
Fixpoint read_digits (s : string) (acc : nat) : nat * string :=
  match s with
  | String c s' =>
      if is_digit c then read_digits s' (10 * acc + (nat_of_ascii c - 48))%nat
      else (acc, s)
  | EmptyString => (acc, s)
  end.

Definition read_int (s : string) : option (Z * string) :=
  match s with
  | String "-" (String c _ as s') =>
      if is_digit c then
        let '(n, rest) := read_digits s' 0 in Some (- Z.of_nat n, rest)
      else None
  | String c _ =>
      if is_digit c then
        let '(n, rest) := read_digits s 0 in Some (Z.of_nat n, rest)
      else None
  | EmptyString => None
  end.

(** The characters of a string literal after its opening quote. *)
Fixpoint read_string (s : string) : option (string * string) :=
  match s with
  | EmptyString => None
  | String c s' =>
      if (nat_of_ascii c =? 34)%nat then Some (EmptyString, s')
      else if (nat_of_ascii c =? 92)%nat then
        match s' with
        | String e s'' =>
            let plain (x : ascii) :=
              match read_string s'' with
              | Some (str, rest) => Some (String x str, rest)
              | None => None
              end in
            if (nat_of_ascii e =? 34)%nat then plain e
            else if (nat_of_ascii e =? 92)%nat then plain e
            else if Ascii.eqb e "/" then plain e
            else if Ascii.eqb e "n" then plain (ascii_of_nat 10)
            else if Ascii.eqb e "t" then plain (ascii_of_nat 9)
            else if Ascii.eqb e "r" then plain (ascii_of_nat 13)
            else None
        | EmptyString => None
        end
      else
        match read_string s' with
        | Some (str, rest) => Some (String c str, rest)
        | None => None
        end
  end.

(** Defining a property again keeps its place and replaces its value. *)
Fixpoint define_property (k : string) (v : json) (fields : list (string * json))
  : list (string * json) :=
  match fields with
  | [] => [(k, v)]
  | (k', v') :: rest =>
      if String.eqb k k' then (k, v) :: rest
      else (k', v') :: define_property k v rest
  end.

(** A key that is an array index: a canonical decimal numeral. *)
Definition index_of_key (k : string) : option nat :=
  match k with
  | EmptyString => None
  | String c rest =>
      if is_digit c && (negb (Ascii.eqb c "0") || String.eqb rest "") then
        match read_digits k 0 with
        | (n, EmptyString) => Some n
        | _ => None
        end
      else None
  end.

Fixpoint insert_index (n : nat) (kv : string * json)
  (l : list (nat * (string * json))) : list (nat * (string * json)) :=
  match l with
  | [] => [(n, kv)]
  | (m, kv') :: l' =>
      if (n <? m)%nat then (n, kv) :: l else (m, kv') :: insert_index n kv l'
  end.

(** Own keys in enumeration order: indices ascending, then the others in
    the order of their definition. *)
Definition own_property_order (fields : list (string * json))
  : list (string * json) :=
  let idx := fold_right (fun kv acc =>
                 match index_of_key (fst kv) with
                 | Some n => insert_index n kv acc
                 | None => acc
                 end) [] fields in
  (map snd idx ++ filter (fun kv => match index_of_key (fst kv) with
                                    | Some _ => false
                                    | None => true
                                    end) fields)%list.

Definition expect (word : string) (s : string) (v : json) : option (json * string) :=
  if startsWith s word
  then Some (v, String.substring (String.length word) (String.length s - String.length word) s)
  else None.

Fixpoint read_value (fuel : nat) (s : string) : option (json * string) :=
  match fuel with
  | O => None
  | S fuel' =>
      match skip_ws s with
      | String "n" _ as t => expect "null" t JNull
      | String "t" _ as t => expect "true" t (JBool true)
      | String "f" _ as t => expect "false" t (JBool false)
      | String "[" rest =>
          match skip_ws rest with
          | String "]" rest' => Some (JArr [], rest')
          | _ =>
              (fix items (n : nat) (s : string) (acc : list json) :=
                 match n with
                 | O => None
                 | S n' =>
                     match read_value fuel' s with
                     | Some (v, rest1) =>
                         match skip_ws rest1 with
                         | String "," rest2 => items n' rest2 (acc ++ [v])%list
                         | String "]" rest2 => Some (JArr (acc ++ [v])%list, rest2)
                         | _ => None
                         end
                     | None => None
                     end
                 end) fuel' rest []
          end
      | String "{" rest =>
          match skip_ws rest with
          | String "}" rest' => Some (JObj [], rest')
          | _ =>
              (fix members (n : nat) (s : string) (acc : list (string * json)) :=
                 match n with
                 | O => None
                 | S n' =>
                     match skip_ws s with
                     | String q rest0 =>
                         if (nat_of_ascii q =? 34)%nat then
                           match read_string rest0 with
                           | Some (k, rest1) =>
                               match skip_ws rest1 with
                               | String ":" rest2 =>
                                   match read_value fuel' rest2 with
                                   | Some (v, rest3) =>
                                       let acc' := define_property k v acc in
                                       match skip_ws rest3 with
                                       | String "," rest4 => members n' rest4 acc'
                                       | String "}" rest4 =>
                                           Some (JObj (own_property_order acc'), rest4)
                                       | _ => None
                                       end
                                   | None => None
                                   end
                               | _ => None
                               end
                           | None => None
                           end
                         else None
                     | EmptyString => None
                     end
                 end) fuel' rest []
          end
      | String c rest as t =>
          if (nat_of_ascii c =? 34)%nat then
            match read_string rest with
            | Some (str, rest') => Some (JStr str, rest')
            | None => None
            end
          else
            match read_int t with
            | Some (n, rest') => Some (JNum n, rest')
            | None => None
            end
      | EmptyString => None
      end
  end.

Definition parse (text : string) : result json :=
  match read_value (S (String.length text)) text with
  | Some (v, rest) =>
      match skip_ws rest with
      | EmptyString => Return v
      | _ => Throw "Unexpected non-whitespace character after JSON"
      end
  | None => Throw "Unexpected token in JSON"
  end.

Definition string_to_number (s : string) : option Z :=
  match skip_ws s with
  | EmptyString => Some 0
  | t =>
      match read_int t with
      | Some (n, rest) =>
          match skip_ws rest with
          | EmptyString => Some n
          | _ => None
          end
      | None => None
      end
  end.

(** [YYYY-MM-DD] at the head of a string, read as midnight UTC. *)
Definition iso_of (v : json) : result string :=
  match v with
  | JStr (String y1 (String y2 (String y3 (String y4 (String "-"
      (String m1 (String m2 (String "-" (String d1 (String d2 _)))))))))) =>
      if forallb is_digit [y1; y2; y3; y4; m1; m2; d1; d2] then
        Return (String y1 (String y2 (String y3 (String y4 (String "-"
                  (String m1 (String m2 (String "-" (String d1 (String d2
                     "T00:00:00.000Z"))))))))))
      else Throw "Invalid time value"
  | _ => Throw "Invalid time value"
  end.

Definition hex_digit (n : nat) : ascii :=
  if (n <? 10)%nat then ascii_of_nat (48 + n) else ascii_of_nat (55 + n).

Definition unreserved (c : ascii) : bool :=
  let n := nat_of_ascii c in
  is_digit c || ((65 <=? n) && (n <=? 90))%nat || ((97 <=? n) && (n <=? 122))%nat
  || existsb (Ascii.eqb c) ["-"; "_"; "."; "!"; "~"; "*"; "'"; "("; ")"]%char.

Fixpoint percent_encode (s : string) : string :=
  match s with
  | EmptyString => EmptyString
  | String c s' =>
      if unreserved c then String c (percent_encode s')
      else
        let n := nat_of_ascii c in
        String "%" (String (hex_digit (n / 16)) (String (hex_digit (n mod 16))
                                                   (percent_encode s')))
  end.

#[export] Instance reference_builtins : Builtins := {|
  JSON_parse := parse;
  toLowerCase := map_string lower_ascii;
  toUpperCase := map_string upper_ascii;
  StringToNumber := string_to_number;
  Date_toISOString := iso_of;
  encodeURIComponent := fun s => Return (percent_encode s);
  path_join := fun segments =>
    join "/" (filter (fun x => negb (String.eqb x "")) segments);
  toLowerCase_empty := eq_refl
|}.

End Reference.

(** ** Notions used to state the properties *)

(** [data.k] when [data] is known not to be [null]. *)
Definition field (data : json) (k : string) : option json :=
  match data with
  | JObj fields => assoc k fields
  | _ => None
  end.

(** The record [fetchSkill] builds from a payload that passed [!data]. *)
Definition success_record (name : string) (data : json) : SkillResult :=
  {| slug := coalesce (field data "slug") (JStr name);
     display_name := coalesce (field data "display_name") (JStr name);
     trust_score := coalesce (field data "trust_score") JNull;
     latest_risk_score := coalesce (field data "latest_risk_score") JNull;
     latest_result := coalesce (field data "latest_result") (JStr "unknown");
     total_findings := coalesce (field data "total_findings") (JNum 0);
     total_reports := coalesce (field data "total_reports") (JNum 0);
     scan_type := coalesce (field data "scan_type") (JStr "unknown");
     source_url := coalesce (field data "source_url") JNull;
     first_audited_at := coalesce (field data "first_audited_at") JNull;
     last_audited_at := coalesce (field data "last_audited_at") JNull;
     error := None |}.

(** Every member that has a default other than [null] holds a value. *)
Definition fully_populated (r : SkillResult) : Prop :=
  slug r <> JNull /\ display_name r <> JNull /\ latest_result r <> JNull
  /\ total_findings r <> JNull /\ total_reports r <> JNull
  /\ scan_type r <> JNull.

(** [score: number | null] *)
Definition is_score (v : json) : bool :=
  match v with
  | JNull | JNum _ => true
  | _ => false
  end.

(** The sort key of the [scan_config] handler: the risk score, -1 for [null]. *)
Definition risk_key (r : SkillResult) : Z :=
  match latest_risk_score r with
  | JNum n => n
  | _ => -1
  end.

(** A record counted by risk alone, without the test on [error]. *)
Definition risk_at_least_40 {B : Builtins} (r : SkillResult) : bool :=
  js_ge (Some (coalesce (Some (latest_risk_score r)) (JNum 0))) 40.

(** What one server entry adds to [packages]: the tokens kept from its
    argument list, and the whole segment the entry contributes. *)
Definition entry_tokens (val : json) : result (list string) :=
  a <- get val "args" ;;
  args <- iterate (coalesce a (JArr [])) ;;
  scan_args args [].

Definition entry_candidates (kv : string * json) : result (list string) :=
  toks <- entry_tokens (snd kv) ;; Return (toks ++ [fst kv])%list.

(** The order a reader expects who takes the key to be recorded before the
    entry's arguments are scanned. *)
Definition key_recorded_first (key : string) (val : json) : Prop :=
  forall out, scan_servers [(key, val)] [] = Return out ->
              exists toks, out = key :: toks.

(** The first line of a formatted record. *)
Definition format_header {B : Builtins} (r : SkillResult) : string :=
  riskEmoji (Some (latest_risk_score r)) ++ " **" ++ ToString (display_name r)
    ++ "** (" ++ ToString (scan_type r) ++ ")".

(** The report of a record without error, in the words of the formatting
    contract: a score or "N/A" when it is absent; "audit" when the report
    count is 1 and "audits" otherwise; the source line only for a source
    that is there; the lines in their fixed order. *)
Definition score_text (v : json) : string :=
  match v with
  | JNull => "N/A"
  | _ => ToString v
  end.

Definition audit_noun (reports : json) : string :=
  match reports with
  | JNum 1 => "audit"
  | _ => "audits"
  end.

Definition report_lines {B : Builtins} (r : SkillResult) (verdict : string)
  (audited : list string) : list string :=
  let trust := "  Trust Score: " ++ score_text (trust_score r) ++ "/100" in
  let risk := "  Risk Score: " ++ score_text (latest_risk_score r) ++ "/100" in
  let verdict_line := "  Verdict: " ++ toUpperCase verdict in
  let findings :=
    "  Findings: " ++ ToString (total_findings r) ++ " (from "
      ++ ToString (total_reports r) ++ " " ++ audit_noun (total_reports r) ++ ")" in
  let source :=
    if truthy (source_url r) then ["  Source: " ++ ToString (source_url r)] else [] in
  let details := "  Details: https://agentaudit.dev/packages/" ++ ToString (slug r) in
  ([format_header r; trust; risk; verdict_line; findings]
     ++ source ++ audited ++ [details])%list.

(** The last-audited line: none for a date that is absent, the calendar day
    of the ISO rendering for a date that [Date] accepts. *)
Definition audited_line {B : Builtins} (r : SkillResult) (audited : list string) : Prop :=
  (truthy (last_audited_at r) = false /\ audited = [])
  \/ (truthy (last_audited_at r) = true
      /\ exists iso, Date_toISOString (last_audited_at r) = Return iso
                     /\ audited = ["  Last audited: " ++ before_first "T" iso]).

(** What the specification says of a record whose [error] member is
    present: the header and one warning line, nothing else. *)
Definition error_only_output {B : Builtins} (r : SkillResult) : Prop :=
  forall e, error r = Some e ->
            formatResult_lines r = Return [format_header r; "  ⚠️ " ++ e].

(** A package summary of the list endpoint: an object whose slug, display
    name and verdict, where present, are strings. *)
Definition string_or_absent (v : option json) : bool :=
  match v with
  | None | Some JNull | Some (JStr _) => true
  | _ => false
  end.

Definition summary_typed (s : json) : bool :=
  match s with
  | JObj fields =>
      string_or_absent (assoc "slug" fields)
      && string_or_absent (assoc "display_name" fields)
      && string_or_absent (assoc "latest_result" fields)
  | _ => false
  end.

Definition text_or (v : option json) (d : string) : string :=
  match v with
  | Some (JStr s) => s
  | _ => d
  end.

(** Case-insensitive substring match of the query against the slug or the
    display name, a missing one counting as the empty string. *)
Definition matches_query {B : Builtins} (query : string) (s : json) : bool :=
  includes (toLowerCase (text_or (field s "slug") "")) (toLowerCase query)
  || includes (toLowerCase (text_or (field s "display_name") "")) (toLowerCase query).

(** The result line of a typed summary. *)
Definition summary_line {B : Builtins} (m : json) : string :=
  riskEmoji (field m "latest_risk_score") ++ " **"
    ++ ToString_opt match field m "display_name" with
                    | None | Some JNull => field m "slug"
                    | Some x => Some x
                    end
    ++ "** — Trust: " ++ ToString (coalesce (field m "trust_score") (JStr "?"))
    ++ "/100, Risk: " ++ ToString (coalesce (field m "latest_risk_score") (JStr "?"))
    ++ "/100, Verdict: " ++ toUpperCase (text_or (field m "latest_result") "?").

(** What the specification says of the header: that its count is the
    number of all matches, whatever the limit. *)
Definition header_states_all_matches {B : Builtins} (env : Env) (query : string)
  (limit : option Z) (items : list json) : Prop :=
  forall text, search_packages env query limit = Return text ->
    startsWith text
      (search_header (List.length (filter (matches_query query) items)) query
                     (List.length items)) = true.

(** What the specification says of the empty query: whenever the list is
    not empty the output lists its first min(limit, length) entries. *)
Definition empty_query_lists_entries {B : Builtins} (env : Env) (limit : option Z)
  (items : list json) : Prop :=
  items <> [] ->
  let n := Nat.min (Z.to_nat (limit_or_default limit)) (List.length items) in
  search_packages env "" limit
  = Return (join LF (search_header n "" (List.length items)
                       :: map summary_line (firstn n items))).

(** Descending order of the sort key. *)
Definition risk_desc (a b : SkillResult) : Prop := risk_key b <= risk_key a.

(** ** Example inputs *)

Definition quoted (s : string) : string := DQ ++ s ++ DQ.

(** The configuration text
    [{"mcpServers": {"fetch": {"args": ["-y", "mcp-server-fetch"]}}}]
    and the value it denotes. *)
Definition config_fetch_text : string :=
  "{" ++ quoted "mcpServers" ++ ": {" ++ quoted "fetch" ++ ": {" ++ quoted "args"
    ++ ": [" ++ quoted "-y" ++ ", " ++ quoted "mcp-server-fetch" ++ "]}}}".

Definition config_fetch_entry : json :=
  JObj [("args", JArr [JStr "-y"; JStr "mcp-server-fetch"])].

Definition config_fetch_json : json :=
  JObj [("mcpServers", JObj [("fetch", config_fetch_entry)])].

(** A package list with two entries whose names begin with "crew" and one
    other entry. *)
Definition skills_text : string :=
  "[{" ++ quoted "slug" ++ ": " ++ quoted "crewai" ++ ", "
       ++ quoted "display_name" ++ ": " ++ quoted "CrewAI" ++ ", "
       ++ quoted "trust_score" ++ ": 0, "
       ++ quoted "latest_risk_score" ++ ": 100, "
       ++ quoted "latest_result" ++ ": " ++ quoted "unsafe" ++ "}, {"
       ++ quoted "slug" ++ ": " ++ quoted "crew-tools" ++ ", "
       ++ quoted "latest_risk_score" ++ ": 45}, {"
       ++ quoted "slug" ++ ": " ++ quoted "fetch" ++ ", "
       ++ quoted "trust_score" ++ ": 20, "
       ++ quoted "latest_risk_score" ++ ": 80, "
       ++ quoted "latest_result" ++ ": " ++ quoted "unsafe" ++ ", "
       ++ quoted "total_findings" ++ ": 3, "
       ++ quoted "total_reports" ++ ": 1}]".

Definition skill_fetch_text : string :=
  "{" ++ quoted "slug" ++ ": " ++ quoted "fetch" ++ ", "
      ++ quoted "trust_score" ++ ": 20, "
      ++ quoted "latest_risk_score" ++ ": 80, "
      ++ quoted "latest_result" ++ ": " ++ quoted "unsafe" ++ ", "
      ++ quoted "total_findings" ++ ": 3, "
      ++ quoted "total_reports" ++ ": 1}".

(** A remote service that knows the package list and the package "fetch",
    answers every other lookup with an HTML 404 page, and fails on the health
    endpoint with a plain-text 500. *)
Definition example_remote (url : string) : fetch_outcome :=
  if String.eqb url (API_BASE ++ "/skills") then Response 200 skills_text
  else if String.eqb url (API_BASE ++ "/skills/fetch") then Response 200 skill_fetch_text
  else if String.eqb url (API_BASE ++ "/health") then Response 500 "Internal Server Error"
  else Response 404 "<!DOCTYPE html><html><body>Not found</body></html>".

Definition example_env : Env :=
  {| fetch := example_remote;
     existsSync := fun _ => true;
     readFileSync := fun _ => Return config_fetch_text;
     platform := "linux";
     getenv := fun k => if String.eqb k "HOME" then Some "/home/user" else None |}.

(** A record whose [error] member is present and empty, as a thrown error
    with an empty message leaves it. *)
Definition record_empty_error : SkillResult := failure_record "pkg" "error" "".

(** The record of the README's sample output. *)
Definition record_crewai : SkillResult :=
  {| slug := JStr "crewai"; display_name := JStr "crewai";
     trust_score := JNum 0; latest_risk_score := JNum 100;
     latest_result := JStr "unsafe";
     total_findings := JNum 31; total_reports := JNum 3;
     scan_type := JStr "pip";
     source_url := JStr "https://github.com/crewAIInc/crewAI";
     first_audited_at := JStr "2026-01-30T10:00:00.000Z";
     last_audited_at := JStr "2026-02-02T08:30:00.000Z";
     error := None |}.

(** The value of [skills_text]. *)
Definition skills_items : list json :=
  [ JObj [("slug", JStr "crewai"); ("display_name", JStr "CrewAI");
          ("trust_score", JNum 0); ("latest_risk_score", JNum 100);
          ("latest_result", JStr "unsafe")];
    JObj [("slug", JStr "crew-tools"); ("latest_risk_score", JNum 45)];
    JObj [("slug", JStr "fetch"); ("trust_score", JNum 20);
          ("latest_risk_score", JNum 80); ("latest_result", JStr "unsafe");
          ("total_findings", JNum 3); ("total_reports", JNum 1)] ].

(** The two records the example service gives for the candidates of the
    example configuration, in candidate order: "mcp-server-fetch" is not
    found (risk [null]); "fetch" has risk 80. *)
Definition record_not_found : SkillResult :=
  failure_record "mcp-server-fetch" "unknown" "Package not found in AgentAudit database".

Definition record_fetch : SkillResult :=
  {| slug := JStr "fetch"; display_name := JStr "fetch";
     trust_score := JNum 20; latest_risk_score := JNum 80;
     latest_result := JStr "unsafe";
     total_findings := JNum 3; total_reports := JNum 1;
     scan_type := JStr "unknown"; source_url := JNull;
     first_audited_at := JNull; last_audited_at := JNull;
     error := None |}.

(** ** The handlers the scan and the search do not use *)

(** [v?.k]: [undefined] when the receiver is [null] or [undefined]. *)
Definition optional_field (v : option json) (k : string) : option json :=
  match v with
  | None | Some JNull => None
  | Some x => field x k
  end.

(** [v?.length]: arrays and strings have a length of their own; an object
    has one only as a property. *)
Definition optional_length (v : option json) : option json :=
  match v with
  | Some (JArr items) => Some (JNum (Z.of_nat (List.length items)))
  | Some (JStr s) => Some (JNum (Z.of_nat (String.length s)))
  | Some (JObj fields) => assoc "length" fields
  | _ => None
  end.

(** [JSON.stringify], used to relay an error payload. *)
Class Serializer : Type := {
  JSON_stringify : json -> string
}.

(** What one POST comes to: the request is rejected, or a response arrives
    with a status code, a status text and a body that [res.json()] reads or
    fails to read.  The request is given by its URL, its headers and the
    value whose JSON text is the body. *)
Inductive post_outcome : Type :=
| PostReject (message : string)
| PostResponse (status : Z) (statusText : string) (body : result json).

Definition PostEnv : Type :=
  string -> list (string * string) -> json -> post_outcome.

Section OtherHandlers.
Context {B : Builtins} {S : Serializer} (env : Env) (post : PostEnv).

Definition get_stats : result string :=
  try_catch
    (health <- apiFetch env (API_BASE ++ "/health") ;;
     if negb (truthy health) then Return "❌ AgentAudit API unreachable"
     else
       status <- get health "status" ;;
       db <- get health "db" ;;
       Return (join LF
         [ "📊 **AgentAudit Stats**";
           "  Status: " ++ ToString_opt status;
           "  Total Findings: "
             ++ ToString (coalesce (optional_field db "findings") (JStr "?"));
           "  Total Packages: "
             ++ ToString (coalesce (optional_field db "skills") (JStr "?"));
           "  Registered Agents: "
             ++ ToString (coalesce (optional_field db "agents") (JStr "?"));
           "  Website: https://agentaudit.dev";
           "  API: https://agentaudit.dev/api/health" ]))
    (fun message => Return ("❌ " ++ message)).




(** [if (x) body.k = x] for an optional string argument. *)
Definition optional_member (k : string) (x : option string)
  : list (string * json) :=
  match x with
  | Some s => if negb (String.eqb s "") then [(k, JStr s)] else []
  | None => []
  end.

(** The object [body] of [submit_report] when the request is sent. *)
Definition report_body (package_name : string) (package_type source_url : option string)
  (risk_score : Z) (result_ : string) (max_severity : option string)
  (findings : option (list json)) : list (string * json) :=
  ([ ("package_name", JStr package_name);
     ("risk_score", JNum risk_score);
     ("result", JStr result_);
     ("findings_count",
      coalesce (optional_length (option_map JArr findings)) (JNum 0)) ]
   ++ optional_member "package_type" package_type
   ++ optional_member "source_url" source_url
   ++ optional_member "max_severity" max_severity
   ++ match findings with
      | Some fs => [("findings", JArr fs)]
      | None => []
      end)%list.

Definition submit_report (api_key package_name : string)
  (package_type source_url : option string) (risk_score : Z) (result_ : string)
  (max_severity : option string) (findings : option (list json)) : result string :=
  try_catch
    (match post (API_BASE ++ "/reports")
             [ ("Content-Type", "application/json");
               ("Authorization", "Bearer " ++ api_key) ]
             (JObj (report_body package_name package_type source_url risk_score
                      result_ max_severity findings)) with
     | PostReject message => Throw message
     | PostResponse status statusText body =>
         data <- body ;;
         if negb (res_ok status) then
           Return ("❌ Submit failed: " ++ JSON_stringify data)
         else
           d_id <- get data "report_id" ;;
           d_created <- get data "findings_created" ;;
           d_dedup <- get data "findings_deduplicated" ;;
           Return (join LF
             [ "✅ **Report submitted for " ++ package_name ++ "**";
               "  Report ID: " ++ ToString_opt d_id;
               "  Findings created: "
                 ++ ToString (coalesce (optional_length d_created) (JNum 0));
               "  Deduplicated: "
                 ++ ToString (coalesce (optional_length d_dedup) (JNum 0));
               "  View: https://agentaudit.dev/packages/" ++ package_name ])
     end)
    (fun message => Return ("❌ " ++ message)).

End OtherHandlers.

(** ** More example inputs *)

Definition env_with (remote : string -> fetch_outcome) (file : string) : Env :=
  {| fetch := remote;
     existsSync := fun _ => true;
     readFileSync := fun _ => Return file;
     platform := "linux";
     getenv := fun k => if String.eqb k "HOME" then Some "/home/user" else None |}.

(** [{"mcpServers": {"b": {"args": ["x", "a"]}, "a": {"args": ["x"]}}}]:
    tokens and keys that repeat. *)
Definition config_repeats_text : string :=
  "{" ++ quoted "mcpServers" ++ ": {" ++ quoted "b" ++ ": {" ++ quoted "args"
    ++ ": [" ++ quoted "x" ++ ", " ++ quoted "a" ++ "]}, " ++ quoted "a" ++ ": {"
    ++ quoted "args" ++ ": [" ++ quoted "x" ++ "]}}}".

Definition config_repeats_json : json :=
  JObj [("mcpServers",
         JObj [("b", JObj [("args", JArr [JStr "x"; JStr "a"])]);
               ("a", JObj [("args", JArr [JStr "x"])])])].


(** [{"servers": {"fetch": {}}}]: a configuration with no server map under
    either of the two names. *)
Definition config_no_map_text : string :=
  "{" ++ quoted "servers" ++ ": {" ++ quoted "fetch" ++ ": {}}}".

(** [v] is [undefined] or [null]. *)
Definition nullish (v : option json) : Prop := v = None \/ v = Some JNull.

(** A service that answers the lookup of "stale" with a record whose
    last-audited date is not a date, and every other request with an HTML
    404 page. *)
Definition stale_text : string :=
  "{" ++ quoted "slug" ++ ": " ++ quoted "stale" ++ ", "
      ++ quoted "latest_risk_score" ++ ": 10, "
      ++ quoted "last_audited_at" ++ ": " ++ quoted "yesterday" ++ "}".

Definition stale_remote (url : string) : fetch_outcome :=
  if String.eqb url (API_BASE ++ "/skills/stale") then Response 200 stale_text
  else Response 404 "<!DOCTYPE html><html><body>Not found</body></html>".

(** A service that is down: every request is rejected. *)
Definition down_remote (url : string) : fetch_outcome := FetchReject "fetch failed".

(** A service that answers every lookup with the empty object. *)
Definition blank_remote (url : string) : fetch_outcome := Response 200 "{}".

(** The text of a failed lookup. *)
Definition failure_text (name message : string) : string :=
  join LF [glyph_unknown ++ " **" ++ name ++ "** (unknown)"; "  ⚠️ " ++ message].


(** A lookup that fails, and fails with something to say: the request
    throws an error with a message, or the answer does not pass [!data]. *)
Definition lookup_fails {B : Builtins} (env : Env) (name : string) : Prop :=
  match skill_request env name with
  | Throw message => message <> ""
  | Return data => truthy data = false
  end.

Definition lookup_failure_text {B : Builtins} (env : Env) (name : string) : string :=
  failure_text name
    match skill_request env name with
    | Throw message => message
    | Return _ => "Package not found in AgentAudit database"
    end.

(** A compact JSON printer for concrete runs, in the manner of
    [JSON.stringify] on values that hold integers and strings whose only
    special characters are the quote and the backslash. *)
Module ReferencePrinter.

Fixpoint escape (s : string) : string :=
  match s with
  | EmptyString => EmptyString
  | String c s' =>
      if ((nat_of_ascii c =? 34) || (nat_of_ascii c =? 92))%nat
      then String (ascii_of_nat 92) (String c (escape s'))
      else String c (escape s')
  end.

Fixpoint print (v : json) : string :=
  match v with
  | JNull => "null"
  | JBool true => "true"
  | JBool false => "false"
  | JNum n => string_of_Z n
  | JStr s => DQ ++ escape s ++ DQ
  | JArr items => "[" ++ join "," (map print items) ++ "]"
  | JObj fields =>
      "{" ++ join "," (map (fun kv => DQ ++ escape (fst kv) ++ DQ ++ ":" ++ print (snd kv))
                           fields) ++ "}"
  end.

#[export] Instance reference_serializer : Serializer := {| JSON_stringify := print |}.

End ReferencePrinter.

(** A registration endpoint that knows one agent, and a reports endpoint
    that refuses every key but "sk-1". *)
Definition example_post (url : string) (headers : list (string * string))
  (body : json) : post_outcome :=
  if String.eqb url (API_BASE ++ "/register") then
    match body with
    | JObj [("agent_name", JStr "taken")] =>
        PostResponse 409 "Conflict" (Return (JObj [("error", JStr "Name already in use")]))
    | JObj [("agent_name", JStr n)] =>
        PostResponse 200 "OK"
          (Return (JObj [("agent_name", JStr n); ("api_key", JStr "sk-1")]))
    | _ => PostResponse 400 "Bad Request" (Throw "Unexpected end of JSON input")
    end
  else if String.eqb url (API_BASE ++ "/reports") then
    if existsb (fun h => String.eqb (fst h) "Authorization"
                         && String.eqb (snd h) "Bearer sk-1") headers
    then PostResponse 201 "Created"
           (Return (JObj [("report_id", JNum 7);
                          ("findings_created", JArr [JNum 1; JNum 2])]))
    else PostResponse 401 "Unauthorized"
           (Return (JObj [("error", JStr "Invalid API key")]))
  else PostReject "fetch failed".

(** A service whose package list holds a [null] between two entries, and
    whose health document has a status and no counts. *)
Definition odd_remote (url : string) : fetch_outcome :=
  if String.eqb url (API_BASE ++ "/skills") then
    Response 200 ("[{" ++ quoted "slug" ++ ": " ++ quoted "crewai" ++ "}, null, {"
                    ++ quoted "slug" ++ ": " ++ quoted "fetch" ++ "}]")
  else if String.eqb url (API_BASE ++ "/health") then
    Response 200 ("{" ++ quoted "status" ++ ": " ++ quoted "ok" ++ "}")
  else Response 404 "<!DOCTYPE html><html><body>Not found</body></html>".

(** The same machine seen with another home directory. *)
Definition windows_env (home : string) : Env :=
  {| fetch := down_remote;
     existsSync := fun _ => false;
     readFileSync := fun _ => Throw "ENOENT";
     platform := "win32";
     getenv := fun k =>
       if String.eqb k "APPDATA" then Some "C:/Users/u/AppData/Roaming"
       else if String.eqb k "HOME" then Some home
       else None |}.

(** A body that begins with an HTML doctype or an html tag, in whatever
    letter case it is written. *)
Definition begins_with_html (text : string) : bool :=
  let t := Reference.map_string Reference.lower_ascii text in
  startsWith t "<!doctype" || startsWith t "<html".

(** What the specification says of such a body: it is "not found", whatever
    the status. *)
Definition html_body_is_not_found {B : Builtins} (env : Env) (url : string) : Prop :=
  forall status text,
    fetch env url = Response status text -> begins_with_html text = true ->
    apiFetch env url = Return JNull.

(** A gateway that writes its error pages with a lower-case doctype, and
    one page with an upper-case tag under a success status. *)
Definition lowercase_page : string := "<!doctype html><html><body>Not found</body></html>".

Definition uppercase_page : string := "<HTML><BODY>Welcome</BODY></HTML>".

Definition lowercase_remote (url : string) : fetch_outcome :=
  if String.eqb url (API_BASE ++ "/skills/welcome") then Response 200 uppercase_page
  else Response 404 lowercase_page.

(** The value whose entries the extractor walks:
    [config.mcpServers ?? config.mcp_servers ?? {}]. *)
Definition server_map (config : json) : json :=
  coalesce (field config "mcpServers") (coalesce (field config "mcp_servers") (JObj [])).

(** The list [args] of one server entry, [val.args ?? []] as the inner loop
    iterates it, and the strings that are launch arguments of some entry. *)
Definition entry_args (val : json) : result (list json) :=
  a <- get val "args" ;; iterate (coalesce a (JArr [])).

Definition launch_argument (entries : list (string * json)) (x : string) : Prop :=
  exists key val args,
    In (key, val) entries /\ entry_args val = Return args /\ In (JStr x) args.

(** The members of a lookup payload that [fetchSkill] reads, and the count
    members of the health document that [get_stats] reads. *)
Definition skill_members : list string :=
  [ "slug"; "display_name"; "trust_score"; "latest_risk_score"; "latest_result";
    "total_findings"; "total_reports"; "scan_type"; "source_url";
    "first_audited_at"; "last_audited_at" ].

Definition count_members : list string := ["findings"; "skills"; "agents"].

(** [{"mcp_servers": {}}] and [{"mcp_servers": {"a": null}}]: the server
    map under its second name. *)
Definition config_empty_second_text : string :=
  "{" ++ quoted "mcp_servers" ++ ": {}}".


(** A service whose lookup answers and health document carry members that
    the handlers do not read. *)
Definition foreign_remote (url : string) : fetch_outcome :=
  if String.eqb url (API_BASE ++ "/health") then
    Response 200 ("{" ++ quoted "status" ++ ": " ++ quoted "ok" ++ ", " ++ quoted "db"
                    ++ ": {" ++ quoted "uptime" ++ ": 5}}")
  else Response 200 ("{" ++ quoted "message" ++ ": " ++ quoted "hello" ++ "}").


(** ** Properties *)

Section Facts.
Context {B : Builtins}.

Lemma bind_Return {A C} (a : A) (k : A -> result C) : bind (Return a) k = k a.
Proof. reflexivity. Qed.

Lemma mapM_pure {A C} (f : A -> result C) (g : A -> C) (l : list A) :
  (forall x, f x = Return (g x)) -> mapM f l = Return (map g l).
Proof.
  intros Hf. induction l as [|x l IH]; simpl.
  - reflexivity.
  - rewrite Hf, IH. reflexivity.
Qed.

Lemma mapM_length {A C} (f : A -> result C) (l : list A) (out : list C) :
  mapM f l = Return out -> List.length out = List.length l.
Proof.
  revert out. induction l as [|x l IH]; simpl; intros out H.
  - inversion H. reflexivity.
  - destruct (f x); simpl in H; [|discriminate].
    destruct (mapM f l); simpl in H; [|discriminate].
    inversion H. simpl. f_equal. apply IH. reflexivity.
Qed.

Lemma get_field (data : json) (k : string) :
  data <> JNull -> get data k = Return (field data k).
Proof. destruct data; simpl; intros H; try reflexivity. contradiction. Qed.

Lemma truthy_not_null (data : json) : truthy data = true -> data <> JNull.
Proof. intros H E. subst. discriminate. Qed.

Lemma coalesce_not_null (v : option json) (d : json) :
  d <> JNull -> coalesce v d <> JNull.
Proof. destruct v as [[]|]; simpl; intros; congruence. Qed.

(** [fetchSkill] in closed form: which record it returns for each outcome of
    the call to [apiFetch]. *)
Lemma fetchSkill_eq (env : Env) (name : string) :
  fetchSkill env name =
  Return match skill_request env name with
         | Throw message => failure_record name "error" message
         | Return data =>
             if truthy data then success_record name data
             else failure_record name "unknown" "Package not found in AgentAudit database"
         end.
Proof.
  unfold fetchSkill.
  destruct (skill_request env name) as [data|message]; simpl; [|reflexivity].
  destruct (truthy data) eqn:T; simpl; [|reflexivity].
  apply truthy_not_null in T.
  rewrite !(get_field data) by assumption. reflexivity.
Qed.

(** C1. [fetchSkill] returns a record for every name and every outcome of the
    remote call and never throws: the members with a default are all set;
    when [apiFetch] answers [null] (not found) the scores are [null], the
    verdict is "unknown" and [error] is the not-found text; when the call
    throws, the verdict is "error" and [error] is the thrown message; a
    payload that passes [!data] gives a record without [error]. *)
Theorem fetchSkill_never_throws (env : Env) (name : string) :
  exists r : SkillResult,
    fetchSkill env name = Return r /\ fully_populated r /\
    match skill_request env name with
    | Throw message =>
        latest_result r = JStr "error" /\ error r = Some message
    | Return JNull =>
        trust_score r = JNull /\ latest_risk_score r = JNull
        /\ latest_result r = JStr "unknown"
        /\ error r = Some "Package not found in AgentAudit database"
    | Return data =>
        if truthy data then r = success_record name data /\ error r = None
        else r = failure_record name "unknown" "Package not found in AgentAudit database"
    end.
Proof.
  eexists. split; [apply fetchSkill_eq|].
  destruct (skill_request env name) as [data|message].
  - destruct (truthy data) eqn:T.
    + split.
      * repeat split; simpl; apply coalesce_not_null; discriminate.
      * destruct data; try discriminate T; auto.
    + split.
      * repeat split; simpl; discriminate.
      * destruct data; try discriminate T; simpl; auto.
        all: rewrite T; reflexivity.
  - split; [repeat split; simpl; discriminate | simpl; auto].
Qed.

Lemma slice_to_length (n : nat) (s : string) :
  (String.length (slice_to n s) <= n)%nat.
Proof.
  unfold slice_to. revert s.
  induction n as [|n IH]; intros [|c s]; simpl; try lia.
  specialize (IH s). lia.
Qed.

Lemma slice_to_prefix (n : nat) (s : string) :
  startsWith s (slice_to n s) = true.
Proof.
  unfold slice_to. revert s.
  induction n as [|n IH]; intros [|c s]; simpl; try reflexivity.
  rewrite Ascii.eqb_refl. apply IH.
Qed.

Lemma slice_to_short (n : nat) (s : string) :
  (String.length s <= n)%nat -> slice_to n s = s.
Proof.
  unfold slice_to. revert s.
  induction n as [|n IH]; intros [|c s]; simpl; intros H; try reflexivity; try lia.
  f_equal. apply IH. lia.
Qed.

(** A rejected request surfaces as a thrown error with the same message. *)
Lemma apiFetch_reject (env : Env) (url message : string) :
  fetch env url = FetchReject message -> apiFetch env url = Throw message.
Proof. unfold apiFetch. intros ->. reflexivity. Qed.

(** C2, as the code has it.  For every status and body of the response: a
    body that starts with the very characters [<!DOCTYPE] or [<html] gives
    [null] (not found) whatever the status; a non-success status with any
    other body throws "HTTP <status>: <excerpt>", the excerpt being the
    first characters of the body, at most 200 of them (the whole body when
    it is that short); a success status with any other body gives exactly
    what [JSON.parse] gives, a thrown parse error included. *)
Theorem apiFetch_tri_state (env : Env) (url : string) (status : Z) (text : string) :
  fetch env url = Response status text ->
  ((startsWith text "<!DOCTYPE" = true \/ startsWith text "<html" = true) ->
     apiFetch env url = Return JNull)
  /\ (looks_like_html text = false -> res_ok status = false ->
        apiFetch env url
          = Throw ("HTTP " ++ string_of_Z status ++ ": " ++ slice_to 200 text)
        /\ (String.length (slice_to 200 text) <= 200)%nat
        /\ startsWith text (slice_to 200 text) = true
        /\ ((String.length text <= 200)%nat -> slice_to 200 text = text))
  /\ (looks_like_html text = false -> res_ok status = true ->
        apiFetch env url = JSON_parse text
        /\ forall message, JSON_parse text = Throw message ->
                           apiFetch env url = Throw message).
Proof.
  intros Hfetch. unfold apiFetch. rewrite Hfetch.
  split; [|split].
  - intros H.
    assert (Hhtml : looks_like_html text = true).
    { unfold looks_like_html. apply orb_true_iff. exact H. }
    rewrite Hhtml. destruct (res_ok status); reflexivity.
  - intros Hhtml Hok. rewrite Hhtml, Hok. simpl.
    repeat split.
    + apply slice_to_length.
    + apply slice_to_prefix.
    + apply slice_to_short.
  - intros Hhtml Hok. rewrite Hhtml, Hok. simpl.
    split; [reflexivity | intros message H; exact H].
Qed.

Lemma glyphs_distinct :
  glyph_unknown <> glyph_high /\ glyph_unknown <> glyph_medium
  /\ glyph_unknown <> glyph_low /\ glyph_high <> glyph_medium
  /\ glyph_high <> glyph_low /\ glyph_medium <> glyph_low.
Proof. repeat split; discriminate. Qed.

Lemma riskEmoji_number (r : Z) :
  riskEmoji (Some (JNum r)) =
  if 70 <=? r then glyph_high else if 40 <=? r then glyph_medium else glyph_low.
Proof. reflexivity. Qed.

(** C8. [riskEmoji] by thresholds: [null] gives the unknown glyph and no
    number does; a number gives the high glyph exactly when it is at least 70,
    the medium glyph exactly when it is at least 40 and below 70, the low
    glyph exactly when it is below 40.  The four cases cover every score and
    exclude each other. *)
Theorem riskEmoji_thresholds :
  riskEmoji (Some JNull) = glyph_unknown
  /\ forall r : Z,
       (riskEmoji (Some (JNum r)) = glyph_high <-> 70 <= r)
       /\ (riskEmoji (Some (JNum r)) = glyph_medium <-> 40 <= r < 70)
       /\ (riskEmoji (Some (JNum r)) = glyph_low <-> r < 40)
       /\ riskEmoji (Some (JNum r)) <> glyph_unknown
       /\ (70 <= r \/ 40 <= r < 70 \/ r < 40).
Proof.
  split; [reflexivity|].
  intros r. rewrite riskEmoji_number.
  destruct glyphs_distinct as (U1 & U2 & U3 & D1 & D2 & D3).
  destruct (Z.leb_spec 70 r) as [H70|H70]; [|destruct (Z.leb_spec 40 r) as [H40|H40]].
  - repeat split; intros; try lia; try congruence.
  - repeat split; intros; try lia; try congruence.
  - repeat split; intros; try lia; try congruence.
Qed.

Lemma scan_args_app (args : list json) (packages : list string) :
  scan_args args packages
  = (toks <- scan_args args [] ;; Return (packages ++ toks)%list).
Proof.
  revert packages. induction args as [|arg rest IH]; intros packages; simpl.
  - rewrite app_nil_r. reflexivity.
  - destruct (as_string_receiver arg) as [a|e]; simpl; [|reflexivity].
    destruct (arg_is_candidate a); [|apply IH].
    rewrite IH, (IH [a]).
    destruct (scan_args rest []); simpl; [|reflexivity].
    rewrite <- app_assoc. reflexivity.
Qed.

Lemma scan_args_strings (strs : list string) :
  scan_args (map JStr strs) [] = Return (filter arg_is_candidate strs).
Proof.
  induction strs as [|a strs IH]; simpl; [reflexivity|].
  destruct (arg_is_candidate a); [|exact IH].
  rewrite scan_args_app, IH. reflexivity.
Qed.

Lemma scan_servers_cons (key : string) (val : json)
  (rest : list (string * json)) (packages : list string) :
  scan_servers ((key, val) :: rest) packages
  = (seg <- entry_candidates (key, val) ;; scan_servers rest (packages ++ seg)%list).
Proof.
  unfold entry_candidates, entry_tokens. simpl.
  destruct (get val "args") as [a|e]; simpl; [|reflexivity].
  destruct (iterate (coalesce a (JArr []))) as [args|e]; simpl; [|reflexivity].
  rewrite scan_args_app.
  destruct (scan_args args []) as [toks|e]; simpl; [|reflexivity].
  rewrite app_assoc. reflexivity.
Qed.

Lemma scan_servers_segments (entries : list (string * json)) (packages : list string) :
  scan_servers entries packages
  = (segs <- mapM entry_candidates entries ;; Return (packages ++ List.concat segs)%list).
Proof.
  revert packages. induction entries as [|[key val] rest IH]; intros packages.
  - simpl. rewrite app_nil_r. reflexivity.
  - rewrite scan_servers_cons. simpl mapM.
    destruct (entry_candidates (key, val)) as [seg|e]; simpl; [|reflexivity].
    rewrite IH.
    destruct (mapM entry_candidates rest) as [segs|e]; simpl; [|reflexivity].
    rewrite <- app_assoc. reflexivity.
Qed.

(** C3, as the code has it.  The array [packages] before deduplication is
    the concatenation, in the order of the server map, of one segment per
    entry, and the segment of an entry is the tokens kept from its argument
    list, in their order, followed by the entry's key: the key comes after
    the entry's argument tokens.  For an entry whose [args] is an array of
    strings the kept tokens are those that pass the two tests. *)
Theorem scan_servers_args_then_key
  (entries : list (string * json)) (packages : list string) :
  scan_servers entries packages
  = (segs <- mapM entry_candidates entries ;; Return (packages ++ List.concat segs)%list)
  /\ (forall key val,
        entry_candidates (key, val)
        = (toks <- entry_tokens val ;; Return (toks ++ [key])%list))
  /\ (forall fields strs,
        assoc "args" fields = Some (JArr (map JStr strs)) ->
        entry_tokens (JObj fields) = Return (filter arg_is_candidate strs)).
Proof.
  split; [apply scan_servers_segments|]. split.
  - reflexivity.
  - intros fields strs H. unfold entry_tokens. simpl. rewrite H. simpl.
    apply scan_args_strings.
Qed.

(** C4. On the configuration text
    [{"mcpServers": {"fetch": {"args": ["-y", "mcp-server-fetch"]}}}]
    the extractor returns exactly ["mcp-server-fetch"; "fetch"]: the launcher
    token "-y" is left out, the server key is in. *)
Theorem extractPackages_fetch_example (env : Env) (configPath : string) :
  readFileSync env configPath = Return config_fetch_text ->
  JSON_parse config_fetch_text = Return config_fetch_json ->
  extractPackagesFromConfig env configPath = Return ["mcp-server-fetch"; "fetch"].
Proof.
  intros Hread Hparse.
  unfold extractPackagesFromConfig, extractPackagesFromText.
  rewrite Hread. simpl. rewrite Hparse. reflexivity.
Qed.

Lemma error_truthy_present (r : SkillResult) :
  error_truthy r = true -> error r <> None.
Proof. unfold error_truthy. destruct (error r); [discriminate 2 | discriminate 1]. Qed.

(** A record of [fetchSkill] that carries [error] is one of the two failure
    records. *)
Lemma fetchSkill_error_cases (env : Env) (name : string) (r : SkillResult) :
  fetchSkill env name = Return r -> error r <> None ->
  exists verdict message, r = failure_record name verdict message.
Proof.
  rewrite fetchSkill_eq. intros H Herr. inversion H as [E]. clear H.
  destruct (skill_request env name) as [data|message].
  - destruct (truthy data).
    + subst r. simpl in Herr. contradiction.
    + eauto.
  - eauto.
Qed.

Lemma is_risky_redundant (env : Env) (name : string) (r : SkillResult) :
  fetchSkill env name = Return r -> is_risky r = risk_at_least_40 r.
Proof.
  intros H. unfold is_risky. fold (risk_at_least_40 r).
  destruct (error_truthy r) eqn:T; [|reflexivity].
  apply error_truthy_present in T.
  destruct (fetchSkill_error_cases env name r H T) as (verdict & message & ->).
  reflexivity.
Qed.

Lemma mapM_In {A C} (f : A -> result C) (l : list A) (out : list C) :
  mapM f l = Return out -> forall y, In y out -> exists x, In x l /\ f x = Return y.
Proof.
  revert out. induction l as [|x l IH]; simpl; intros out H y Hy.
  - inversion H; subst. contradiction.
  - destruct (f x) as [y0|] eqn:Fx; simpl in H; [|discriminate].
    destruct (mapM f l) as [ys|]; simpl in H; [|discriminate].
    inversion H; subst. destruct Hy as [->|Hy].
    + exists x. auto.
    + destruct (IH ys eq_refl y Hy) as (x' & Hin & Hx'). exists x'. auto.
Qed.

Lemma mapM_fetchSkill_total (env : Env) (packages : list string) :
  exists results, mapM (fetchSkill env) packages = Return results.
Proof.
  eexists. apply mapM_pure with
    (g := fun name =>
            match skill_request env name with
            | Throw message => failure_record name "error" message
            | Return data =>
                if truthy data then success_record name data
                else failure_record name "unknown" "Package not found in AgentAudit database"
            end).
  intros name. apply fetchSkill_eq.
Qed.

(** C9. Every record [fetchSkill] returns that carries [error] has both
    scores [null], both counts 0, the scan type "unknown", and the queried
    name as slug and display name.  So in the scan handler, over the records
    looked up for any list of packages, filtering on [!r.error] and a risk
    of at least 40 keeps exactly the records that the risk test alone keeps,
    and the two counts agree. *)
Theorem fetchSkill_error_invariant (env : Env) (name : string) (packages : list string) :
  (exists r, fetchSkill env name = Return r
     /\ (error r <> None ->
           trust_score r = JNull /\ latest_risk_score r = JNull
           /\ total_findings r = JNum 0 /\ total_reports r = JNum 0
           /\ scan_type r = JStr "unknown"
           /\ slug r = JStr name /\ display_name r = JStr name))
  /\ (exists results, mapM (fetchSkill env) packages = Return results
        /\ filter is_risky results = filter risk_at_least_40 results
        /\ List.length (filter is_risky results)
            = List.length (filter risk_at_least_40 results)).
Proof.
  split.
  - eexists. split; [apply fetchSkill_eq|]. intros Herr.
    destruct (fetchSkill_error_cases env name _ (fetchSkill_eq env name) Herr)
      as (verdict & message & ->).
    simpl. repeat split.
  - destruct (mapM_fetchSkill_total env packages) as (results & Hres).
    exists results. split; [exact Hres|].
    assert (E : filter is_risky results = filter risk_at_least_40 results).
    { apply filter_ext_in. intros r Hin.
      destruct (mapM_In _ _ _ Hres r Hin) as (name' & _ & Hname').
      exact (is_risky_redundant env name' r Hname'). }
    split; [exact E | rewrite E; reflexivity].
Qed.

Lemma score_text_coalesce (v : json) :
  ToString (coalesce (Some v) (JStr "N/A")) = score_text v.
Proof. destruct v; reflexivity. Qed.

Lemma audit_noun_suffix (v : json) :
  " audit" ++ match v with JNum 1 => "" | _ => "s" end ++ ")"
  = " " ++ audit_noun v ++ ")".
Proof.
  destruct v as [| |n| | |]; try reflexivity.
  destruct n as [|p|p]; try reflexivity.
  destruct p; reflexivity.
Qed.

Lemma error_truthy_iff (r : SkillResult) :
  error_truthy r = true <-> exists e, error r = Some e /\ e <> "".
Proof.
  unfold error_truthy. destruct (error r) as [e|].
  - rewrite negb_true_iff, String.eqb_neq. split.
    + intros H. exists e. auto.
    + intros (e' & E & H). inversion E. subst. exact H.
  - split; [discriminate | intros (e & E & _); discriminate].
Qed.

(** C7, as the code has it.  A record whose [error] is a non-empty text is
    formatted as the header line followed by one warning line with that
    text, and nothing else.  A record whose [error] is absent or empty, with
    a string verdict and a last-audited date that is absent or that [Date]
    accepts, is formatted as the header, trust score, risk score, upper-case
    verdict, findings, then the source line if there is a source, then the
    last-audited line if there is a date, then the details link, in this
    order, with "N/A" for a [null] score and "audit" exactly for a report
    count of 1. *)
Theorem formatResult_lines_spec (r : SkillResult) :
  (forall e, error r = Some e -> e <> "" ->
     formatResult_lines r = Return [format_header r; "  ⚠️ " ++ e])
  /\ (forall verdict audited,
        error r = None \/ error r = Some "" ->
        latest_result r = JStr verdict ->
        audited_line r audited ->
        formatResult_lines r = Return (report_lines r verdict audited)
        /\ formatResult r = Return (join LF (report_lines r verdict audited))).
Proof.
  split.
  - intros e He Hne.
    assert (T : error_truthy r = true) by (apply error_truthy_iff; eauto).
    unfold formatResult_lines, error_text. rewrite T, He. reflexivity.
  - intros verdict audited Herr Hverdict Haud.
    assert (T : error_truthy r = false).
    { unfold error_truthy. destruct Herr as [-> | ->]; reflexivity. }
    assert (L : formatResult_lines r = Return (report_lines r verdict audited)).
    { unfold formatResult_lines, report_lines. rewrite T, Hverdict.
      change (call_toUpperCase (JStr verdict)) with (Return (toUpperCase verdict)).
      rewrite bind_Return. cbv beta zeta.
      rewrite !score_text_coalesce, audit_noun_suffix.
      destruct Haud as [(Hd & ->) | (Hd & iso & Hiso & ->)]; rewrite Hd.
      - reflexivity.
      - rewrite Hiso. reflexivity. }
    split; [exact L|]. unfold formatResult. rewrite L. reflexivity.
Qed.

Lemma filterM_pure {A} (f : A -> result bool) (g : A -> bool) (l : list A) :
  Forall (fun x => f x = Return (g x)) l -> filterM f l = Return (filter g l).
Proof.
  induction 1 as [|x l Hx _ IH]; simpl.
  - reflexivity.
  - rewrite Hx, IH. simpl. reflexivity.
Qed.

Lemma mapM_pure_Forall {A C} (f : A -> result C) (g : A -> C) (l : list A) :
  Forall (fun x => f x = Return (g x)) l -> mapM f l = Return (map g l).
Proof.
  induction 1 as [|x l Hx _ IH]; simpl.
  - reflexivity.
  - rewrite Hx, IH. reflexivity.
Qed.

Lemma lower_text_or (v : option json) :
  string_or_absent v = true ->
  call_toLowerCase (coalesce v (JStr "")) = Return (toLowerCase (text_or v "")).
Proof. destruct v as [[]|]; simpl; intros H; try discriminate; reflexivity. Qed.

Lemma upper_text_or (v : option json) :
  string_or_absent v = true ->
  call_toUpperCase (coalesce v (JStr "?")) = Return (toUpperCase (text_or v "?")).
Proof. destruct v as [[]|]; simpl; intros H; try discriminate; reflexivity. Qed.

Lemma search_matches_typed (query : string) (s : json) :
  summary_typed s = true ->
  search_matches (toLowerCase query) s = Return (matches_query query s).
Proof.
  destruct s as [| | | | |fields]; simpl; try discriminate.
  intros H. apply andb_true_iff in H. destruct H as (H & _).
  apply andb_true_iff in H. destruct H as (Hslug & Hname).
  unfold search_matches, matches_query. simpl.
  rewrite (lower_text_or _ Hslug). simpl.
  destruct (includes (toLowerCase (text_or (assoc "slug" fields) "")) (toLowerCase query)).
  - reflexivity.
  - rewrite (lower_text_or _ Hname). reflexivity.
Qed.

Lemma search_line_typed (m : json) :
  summary_typed m = true -> search_line m = Return (summary_line m).
Proof.
  destruct m as [| | | | |fields]; simpl; try discriminate.
  intros H. apply andb_true_iff in H. destruct H as (_ & Hres).
  unfold search_line, summary_line. simpl.
  rewrite (upper_text_or _ Hres). reflexivity.
Qed.

Lemma slice0_nonneg {A} (e : Z) (l : list A) :
  0 <= e -> slice0 e l = firstn (Z.to_nat e) l.
Proof.
  intros He. unfold slice0.
  destruct (Z.ltb_spec e 0) as [H|_]; [lia|].
  destruct (Z.le_gt_cases e (Z.of_nat (List.length l))) as [H|H].
  - rewrite Z.min_l by assumption. reflexivity.
  - rewrite Z.min_r by lia. rewrite Nat2Z.id.
    rewrite firstn_all. symmetry. apply firstn_all2. lia.
Qed.

Lemma Forall_filter_keep {A} (P : A -> Prop) (f : A -> bool) (l : list A) :
  Forall P l -> Forall P (filter f l).
Proof.
  induction 1 as [|x l Hx _ IH]; simpl; [constructor|].
  destruct (f x); [constructor|]; assumption.
Qed.

Lemma Forall_firstn_keep {A} (P : A -> Prop) (n : nat) (l : list A) :
  Forall P l -> Forall P (firstn n l).
Proof.
  intros H. revert n. induction H as [|x l Hx _ IH]; intros [|n]; simpl;
    constructor; auto.
Qed.

(** The search handler on a list of typed summaries and a limit that is not
    negative, in closed form. *)
Lemma search_packages_typed (env : Env) (query : string) (limit : option Z)
  (items : list json) :
  apiFetch env (API_BASE ++ "/skills") = Return (JArr items) ->
  Forall (fun s => summary_typed s = true) items ->
  0 <= limit_or_default limit ->
  let shown :=
    firstn (Z.to_nat (limit_or_default limit)) (filter (matches_query query) items) in
  search_packages env query limit
  = Return (match shown with
            | [] => search_none query (List.length items)
            | _ => join LF (search_header (List.length shown) query (List.length items)
                              :: map summary_line shown)
            end).
Proof.
  intros Hfetch Htyped Hlimit shown.
  unfold search_packages, search_select. rewrite Hfetch. simpl bind.
  rewrite (filterM_pure _ (matches_query query)).
  2:{ eapply Forall_impl; [|exact Htyped].
      intros s Hs. apply search_matches_typed. exact Hs. }
  simpl bind. rewrite slice0_nonneg by assumption. fold shown.
  assert (Hshown : Forall (fun s => summary_typed s = true) shown).
  { apply Forall_firstn_keep, Forall_filter_keep. exact Htyped. }
  destruct shown as [|m rest] eqn:E.
  - reflexivity.
  - change (List.length (m :: rest) =? 0)%nat with false. cbv iota.
    rewrite (mapM_pure_Forall _ summary_line).
    + reflexivity.
    + eapply Forall_impl; [|exact Hshown].
      intros s Hs. apply search_line_typed. exact Hs.
Qed.

Lemma try_catch_total {A} (body : result A) (handler : string -> result A) :
  (forall e, exists a, handler e = Return a) ->
  exists a, try_catch body handler = Return a.
Proof. intros H. destruct body as [a|e]; simpl; [eauto | apply H]. Qed.

(** The search handler is an error boundary: it returns a text whatever the
    service answers. *)
Lemma search_packages_total (env : Env) (query : string) (limit : option Z) :
  exists text, search_packages env query limit = Return text.
Proof. unfold search_packages. apply try_catch_total. eauto. Qed.

(** C5, as the code has it.  Over a fetched list of typed summaries and for
    a limit that is not negative (10 when omitted), the handler keeps the
    first [limit] of the entries whose slug or display name contains the
    query, case-insensitively.  When none is kept it answers with the
    "no packages matching" text, which states the size of the whole list.
    Otherwise it answers with a header followed by one line per kept entry,
    so exactly [limit] lines when more entries match than the limit allows;
    the count in the header is the number of kept entries, and the header
    also states the size of the whole list. *)
Theorem search_packages_truncates (env : Env) (query : string) (limit : option Z)
  (items : list json) :
  apiFetch env (API_BASE ++ "/skills") = Return (JArr items) ->
  Forall (fun s => summary_typed s = true) items ->
  0 <= limit_or_default limit ->
  let found := filter (matches_query query) items in
  let shown := firstn (Z.to_nat (limit_or_default limit)) found in
  List.length shown = Nat.min (Z.to_nat (limit_or_default limit)) (List.length found)
  /\ (shown = [] ->
        search_packages env query limit = Return (search_none query (List.length items)))
  /\ (shown <> [] ->
        search_packages env query limit
        = Return (join LF (search_header (List.length shown) query (List.length items)
                             :: map summary_line shown))
        /\ List.length (map summary_line shown) = List.length shown).
Proof.
  intros Hfetch Htyped Hlimit found shown.
  pose proof (search_packages_typed env query limit items Hfetch Htyped Hlimit) as H.
  cbv zeta in H. fold found in H. fold shown in H.
  split; [apply length_firstn|]. split.
  - intros E. rewrite H, E. reflexivity.
  - intros NE. split; [|apply length_map].
    rewrite H. destruct shown; [contradiction|reflexivity].
Qed.

Lemma includes_empty (s : string) : includes s "" = true.
Proof. destruct s; reflexivity. Qed.

Lemma matches_query_empty (s : json) : matches_query "" s = true.
Proof.
  unfold matches_query. rewrite toLowerCase_empty, includes_empty. reflexivity.
Qed.

Lemma filter_all {A} (f : A -> bool) (l : list A) :
  (forall x, f x = true) -> filter f l = l.
Proof.
  intros H. induction l as [|x l IH]; simpl; [reflexivity|].
  rewrite H, IH. reflexivity.
Qed.

(** C10, as the code has it.  For the empty query, a limit of at least 1
    (10 when omitted) and a non-empty fetched list of typed summaries, every
    entry matches, and the output is the header followed by the lines of the
    first min(limit, length) entries of the list in fetch order. *)
Theorem search_empty_query_lists_prefix (env : Env) (limit : option Z)
  (items : list json) :
  apiFetch env (API_BASE ++ "/skills") = Return (JArr items) ->
  Forall (fun s => summary_typed s = true) items ->
  1 <= limit_or_default limit ->
  items <> [] ->
  let shown := firstn (Z.to_nat (limit_or_default limit)) items in
  filter (matches_query "") items = items
  /\ List.length shown = Nat.min (Z.to_nat (limit_or_default limit)) (List.length items)
  /\ search_packages env "" limit
     = Return (join LF (search_header (List.length shown) "" (List.length items)
                          :: map summary_line shown)).
Proof.
  intros Hfetch Htyped Hlimit Hne shown.
  assert (Hall : filter (matches_query "") items = items)
    by (apply filter_all, matches_query_empty).
  split; [exact Hall|]. split; [apply length_firstn|].
  rewrite (search_packages_typed env "" limit items Hfetch Htyped) by lia.
  cbv zeta. rewrite Hall. fold shown.
  destruct items as [|m rest]; [contradiction|].
  destruct (Z.to_nat (limit_or_default limit)) as [|n] eqn:E; [lia|].
  reflexivity.
Qed.

Section StableSort.
Context {A : Type} (cmp : A -> A -> option Z) (key : A -> Z) (P : A -> Prop).
Hypothesis cmp_key : forall a b, P a -> P b -> cmp a b = Some (key b - key a).

Lemma sort_insert_perm (x : A) (l : list A) :
  Permutation (x :: l) (sort_insert cmp x l).
Proof.
  induction l as [|y l IH]; simpl.
  - apply Permutation_refl.
  - destruct (goes_after (cmp x y)).
    + eapply perm_trans; [apply perm_swap|]. apply perm_skip, IH.
    + apply Permutation_refl.
Qed.

Lemma Array_sort_perm (l : list A) : Permutation l (Array_sort cmp l).
Proof.
  induction l as [|x l IH]; simpl.
  - apply perm_nil.
  - eapply perm_trans; [apply perm_skip, IH | apply sort_insert_perm].
Qed.

Lemma Array_sort_Forall (Q : A -> Prop) (l : list A) :
  Forall Q l -> Forall Q (Array_sort cmp l).
Proof.
  intros H. eapply Permutation_Forall; [apply Array_sort_perm | exact H].
Qed.

Lemma sort_insert_sorted (x : A) (l : list A) :
  P x -> Forall P l ->
  StronglySorted (fun a b => key b <= key a) l ->
  StronglySorted (fun a b => key b <= key a) (sort_insert cmp x l).
Proof.
  intros Px Pl Hs. induction Hs as [|y l Hs IH Hy]; simpl.
  - constructor; constructor.
  - inversion Pl as [|y' l' Py Pl']; subst.
    rewrite (cmp_key x y Px Py). unfold goes_after.
    destruct (Z.ltb_spec 0 (key y - key x)) as [Hlt|Hge].
    + constructor; [apply IH; assumption|].
      eapply Permutation_Forall; [apply sort_insert_perm|].
      constructor; [lia | exact Hy].
    + constructor; [constructor; assumption|].
      constructor; [lia|].
      eapply Forall_impl; [|exact Hy]. intros z Hz. simpl in Hz. lia.
Qed.

Lemma Array_sort_sorted (l : list A) :
  Forall P l -> StronglySorted (fun a b => key b <= key a) (Array_sort cmp l).
Proof.
  induction 1 as [|x l Px Pl IH]; simpl.
  - constructor.
  - apply sort_insert_sorted; [exact Px | apply Array_sort_Forall; exact Pl | exact IH].
Qed.

End StableSort.

Lemma StronglySorted_after {A} (R : A -> A -> Prop) (before after : list A) (r : A) :
  StronglySorted R (before ++ r :: after) -> Forall (R r) after.
Proof.
  induction before as [|x before IH]; simpl; intros H;
    apply StronglySorted_inv in H; destruct H as (Hs & Hall).
  - exact Hall.
  - apply IH. exact Hs.
Qed.

Lemma by_risk_desc_key (a b : SkillResult) :
  is_score (latest_risk_score a) = true ->
  is_score (latest_risk_score b) = true ->
  by_risk_desc a b = Some (risk_key b - risk_key a).
Proof.
  unfold by_risk_desc, risk_key.
  destruct (latest_risk_score a); try discriminate;
    destruct (latest_risk_score b); try discriminate; reflexivity.
Qed.

Lemma scan_config_report (env : Env) (path : option string) (packages : list string) :
  let resolved := or_else path (getDefaultConfigPath env) in
  existsSync env resolved = true ->
  extractPackagesFromConfig env resolved = Return packages ->
  packages <> [] ->
  scan_config env path = scan_report env resolved packages.
Proof.
  intros resolved Hex Hpk Hne. unfold scan_config. fold resolved.
  rewrite Hex, Hpk. simpl negb. cbv iota.
  destruct packages; [contradiction|reflexivity].
Qed.

(** C6. In a scan whose lookups give risk scores that are numbers or [null],
    the records are rendered in the order the sort leaves them: a
    rearrangement of the lookup results that is descending in the risk
    score, a [null] score counting as -1.  So after a record with a [null]
    score no record with a score of 0 or more appears; with scores in their
    range 0-100 the records without a score come last, below every score
    that is present; and of two results with risk 80 and risk [null], in
    either lookup order, the one with risk 80 is rendered first. *)
Theorem scan_config_sorted_by_risk (env : Env) (path : option string)
  (packages : list string) (results : list SkillResult) :
  let resolved := or_else path (getDefaultConfigPath env) in
  existsSync env resolved = true ->
  extractPackagesFromConfig env resolved = Return packages ->
  packages <> [] ->
  mapM (fetchSkill env) packages = Return results ->
  Forall (fun r => is_score (latest_risk_score r) = true) results ->
  let sorted := Array_sort by_risk_desc results in
  Permutation results sorted
  /\ StronglySorted risk_desc sorted
  /\ (forall before r after r' s,
        sorted = (before ++ r :: after)%list -> latest_risk_score r = JNull ->
        In r' after -> latest_risk_score r' = JNum s -> s < 0)
  /\ (Forall (fun r => forall s, latest_risk_score r = JNum s -> 0 <= s <= 100) results ->
      forall before r after,
        sorted = (before ++ r :: after)%list -> latest_risk_score r = JNull ->
        Forall (fun r' => latest_risk_score r' = JNull) after)
  /\ (forall a b,
        latest_risk_score a = JNum 80 -> latest_risk_score b = JNull ->
        (results = [a; b] -> sorted = [a; b])
        /\ (results = [b; a] -> sorted = [a; b]))
  /\ scan_config env path
     = (texts <- mapM formatResult sorted ;;
        Return (join (LF ++ LF)
                  (scan_summary resolved results (filter is_risky results) ++ texts)%list)).
Proof.
  intros resolved Hex Hpk Hne Hres Htyped sorted.
  assert (Hsorted : StronglySorted risk_desc sorted).
  { apply (Array_sort_sorted by_risk_desc risk_key
             (fun r => is_score (latest_risk_score r) = true)).
    - intros a b Ha Hb. apply by_risk_desc_key; assumption.
    - exact Htyped. }
  assert (Hbelow : forall before r after r' s,
             sorted = (before ++ r :: after)%list -> latest_risk_score r = JNull ->
             In r' after -> latest_risk_score r' = JNum s -> s < 0).
  { intros before r after r' s E Hr Hin Hr'.
    rewrite E in Hsorted. apply StronglySorted_after in Hsorted.
    rewrite Forall_forall in Hsorted. specialize (Hsorted r' Hin).
    unfold risk_desc, risk_key in Hsorted. rewrite Hr, Hr' in Hsorted. lia. }
  split; [apply Array_sort_perm|]. split; [exact Hsorted|].
  split; [exact Hbelow|]. split; [|split].
  - intros Hrange before r after E Hr.
    apply Forall_forall. intros r' Hin.
    assert (Hin' : In r' sorted).
    { rewrite E. apply in_or_app. right. right. exact Hin. }
    assert (Hres' : In r' results).
    { eapply Permutation_in; [apply Permutation_sym, Array_sort_perm | exact Hin']. }
    rewrite Forall_forall in Hrange, Htyped.
    specialize (Hrange r' Hres'). specialize (Htyped r' Hres').
    destruct (latest_risk_score r') as [| |s| | |] eqn:Hs; try discriminate Htyped.
    + reflexivity.
    + specialize (Hrange s eq_refl).
      specialize (Hbelow before r after r' s E Hr Hin Hs). lia.
  - intros a b Ha Hb. subst sorted. split; intros ->; simpl.
    + unfold by_risk_desc. rewrite Ha, Hb. reflexivity.
    + unfold by_risk_desc. rewrite Ha, Hb. reflexivity.
  - rewrite (scan_config_report env path packages Hex Hpk Hne).
    unfold scan_report. rewrite Hres. reflexivity.
Qed.

End Facts.

(** ** The properties on concrete runs *)

(** The tri-state contract at work on the example service: a plain-text 500
    throws with status and body; the HTML 404 page is "not found". *)
Lemma apiFetch_tri_state_witness :
  fetch example_env (API_BASE ++ "/health") = Response 500 "Internal Server Error"
  /\ apiFetch (B := Reference.reference_builtins) example_env (API_BASE ++ "/health")
      = Throw "HTTP 500: Internal Server Error".
Proof.
  split; [reflexivity|].
  destruct (apiFetch_tri_state (B := Reference.reference_builtins) example_env
              (API_BASE ++ "/health") 500 "Internal Server Error" eq_refl)
    as (_ & H & _).
  destruct (H eq_refl eq_refl) as (E & _). exact E.
Defined.

(** The claimed order fails on the example configuration: its one entry
    contributes the argument token first and the key last. *)
Lemma key_recorded_first_counterexample :
  scan_servers [("fetch", config_fetch_entry)] [] = Return ["mcp-server-fetch"; "fetch"]
  /\ collectPackages config_fetch_json = Return ["mcp-server-fetch"; "fetch"]
  /\ ~ key_recorded_first "fetch" config_fetch_entry.
Proof.
  split; [reflexivity|]. split; [reflexivity|].
  intros H. destruct (H _ eq_refl) as (toks & E). discriminate E.
Qed.

(** The reference reader parses the example text to the example value, and
    the extractor then returns the two candidates. *)
Lemma extractPackages_fetch_example_witness :
  readFileSync example_env "claude_desktop_config.json" = Return config_fetch_text
  /\ JSON_parse (Builtins := Reference.reference_builtins) config_fetch_text
      = Return config_fetch_json
  /\ extractPackagesFromConfig (B := Reference.reference_builtins)
       example_env "claude_desktop_config.json"
     = Return ["mcp-server-fetch"; "fetch"].
Proof.
  split; [reflexivity|]. split; [vm_compute; reflexivity|].
  apply (extractPackages_fetch_example (B := Reference.reference_builtins)).
  - reflexivity.
  - vm_compute; reflexivity.
Defined.

(** A record whose [error] member is present but empty is formatted with all
    the score lines and without a warning line. *)
Lemma error_only_output_counterexample :
  error record_empty_error = Some ""
  /\ formatResult_lines (B := Reference.reference_builtins) record_empty_error
     = Return [ "❓ **pkg** (unknown)";
                "  Trust Score: N/A/100";
                "  Risk Score: N/A/100";
                "  Verdict: ERROR";
                "  Findings: 0 (from 0 audits)";
                "  Details: https://agentaudit.dev/packages/pkg" ]
  /\ ~ error_only_output (B := Reference.reference_builtins) record_empty_error.
Proof.
  split; [reflexivity|]. split; [reflexivity|].
  intros H. specialize (H "" eq_refl). discriminate H.
Qed.

(** The README's sample: a record without error, formatted line by line. *)
Lemma formatResult_lines_spec_witness :
  (error record_crewai = None \/ error record_crewai = Some "")
  /\ latest_result record_crewai = JStr "unsafe"
  /\ audited_line (B := Reference.reference_builtins) record_crewai
       ["  Last audited: 2026-02-02"]
  /\ formatResult_lines (B := Reference.reference_builtins) record_crewai
     = Return [ "🔴 **crewai** (pip)";
                "  Trust Score: 0/100";
                "  Risk Score: 100/100";
                "  Verdict: UNSAFE";
                "  Findings: 31 (from 3 audits)";
                "  Source: https://github.com/crewAIInc/crewAI";
                "  Last audited: 2026-02-02";
                "  Details: https://agentaudit.dev/packages/crewai" ].
Proof.
  assert (A : audited_line (B := Reference.reference_builtins) record_crewai
                ["  Last audited: 2026-02-02"]).
  { right. split; [reflexivity|].
    exists "2026-02-02T00:00:00.000Z". split; reflexivity. }
  split; [left; reflexivity|]. split; [reflexivity|]. split; [exact A|].
  destruct (formatResult_lines_spec (B := Reference.reference_builtins) record_crewai)
    as (_ & H).
  destruct (H "unsafe" ["  Last audited: 2026-02-02"] (or_introl eq_refl) eq_refl A)
    as (L & _).
  exact L.
Defined.

(** The reference reader takes the example list text to the example list. *)
Lemma example_skills_fetched :
  apiFetch (B := Reference.reference_builtins) example_env (API_BASE ++ "/skills")
  = Return (JArr skills_items).
Proof. vm_compute. reflexivity. Qed.

(** Query "crew" with limit 1 against a list with two matching entries: one
    result line, and a header that says 1, the number of lines shown, beside
    the size 3 of the list; the number 2 of all matches is not stated. *)
Lemma header_states_all_matches_counterexample :
  List.length
    (filter (matches_query (B := Reference.reference_builtins) "crew") skills_items)
  = 2%nat
  /\ search_packages (B := Reference.reference_builtins) example_env "crew" (Some 1)
     = Return (join LF
                 [ search_header 1 "crew" 3;
                   "🔴 **CrewAI** — Trust: 0/100, Risk: 100/100, Verdict: UNSAFE" ])
  /\ ~ header_states_all_matches (B := Reference.reference_builtins)
         example_env "crew" (Some 1) skills_items.
Proof.
  split; [reflexivity|].
  assert (E : search_packages (B := Reference.reference_builtins) example_env "crew" (Some 1)
              = Return (join LF
                 [ search_header 1 "crew" 3;
                   "🔴 **CrewAI** — Trust: 0/100, Risk: 100/100, Verdict: UNSAFE" ]))
    by (vm_compute; reflexivity).
  split; [exact E|].
  intros H. specialize (H _ E). vm_compute in H. discriminate H.
Qed.

Lemma search_packages_truncates_witness :
  apiFetch (B := Reference.reference_builtins) example_env (API_BASE ++ "/skills")
  = Return (JArr skills_items)
  /\ Forall (fun s => summary_typed s = true) skills_items
  /\ 0 <= limit_or_default (Some 1)
  /\ search_packages (B := Reference.reference_builtins) example_env "crew" (Some 1)
     = Return (join LF
                 [ search_header 1 "crew" 3;
                   "🔴 **CrewAI** — Trust: 0/100, Risk: 100/100, Verdict: UNSAFE" ]).
Proof.
  assert (T : Forall (fun s => summary_typed s = true) skills_items)
    by (repeat constructor).
  split; [exact example_skills_fetched|]. split; [exact T|].
  split; [discriminate|].
  destruct (search_packages_truncates (B := Reference.reference_builtins)
              example_env "crew" (Some 1) skills_items
              example_skills_fetched T ltac:(discriminate))
    as (_ & _ & H).
  destruct H as (H & _); [discriminate|]. exact H.
Defined.

(** The empty query with limit 0 against a non-empty list: every entry
    matches, none is kept, and the answer is the "no packages matching"
    text. *)
Lemma empty_query_lists_entries_counterexample :
  skills_items <> []
  /\ filter (matches_query (B := Reference.reference_builtins) "") skills_items
     = skills_items
  /\ search_packages (B := Reference.reference_builtins) example_env "" (Some 0)
     = Return (search_none "" 3)
  /\ ~ empty_query_lists_entries (B := Reference.reference_builtins)
         example_env (Some 0) skills_items.
Proof.
  split; [discriminate|]. split; [reflexivity|].
  assert (E : search_packages (B := Reference.reference_builtins) example_env "" (Some 0)
              = Return (search_none "" 3)) by (vm_compute; reflexivity).
  split; [exact E|].
  intros H. unfold empty_query_lists_entries in H.
  specialize (H ltac:(discriminate)). rewrite E in H.
  vm_compute in H. discriminate H.
Qed.

Lemma search_empty_query_lists_prefix_witness :
  apiFetch (B := Reference.reference_builtins) example_env (API_BASE ++ "/skills")
  = Return (JArr skills_items)
  /\ Forall (fun s => summary_typed s = true) skills_items
  /\ 1 <= limit_or_default (Some 2)
  /\ skills_items <> []
  /\ search_packages (B := Reference.reference_builtins) example_env "" (Some 2)
     = Return (join LF
                 [ search_header 2 "" 3;
                   "🔴 **CrewAI** — Trust: 0/100, Risk: 100/100, Verdict: UNSAFE";
                   "🟡 **crew-tools** — Trust: ?/100, Risk: 45/100, Verdict: ?" ]).
Proof.
  assert (T : Forall (fun s => summary_typed s = true) skills_items)
    by (repeat constructor).
  split; [exact example_skills_fetched|]. split; [exact T|].
  split; [discriminate|]. split; [discriminate|].
  destruct (search_empty_query_lists_prefix (B := Reference.reference_builtins)
              example_env (Some 2) skills_items
              example_skills_fetched T ltac:(discriminate) ltac:(discriminate))
    as (_ & _ & H).
  exact H.
Defined.

(** The scan of the example configuration: the first candidate is not found
    (risk [null]), the second has risk 80, and the second is rendered
    first. *)
Lemma scan_config_example :
  scan_config (B := Reference.reference_builtins) example_env None
  = Return (join (LF ++ LF)
      [ "🔍 Scanned /home/user/.config/claude/claude_desktop_config.json";
        "📦 2 packages checked | 1 with elevated risk" ++ LF;
        join LF [ "🔴 **fetch** (unknown)";
                  "  Trust Score: 20/100";
                  "  Risk Score: 80/100";
                  "  Verdict: UNSAFE";
                  "  Findings: 3 (from 1 audit)";
                  "  Details: https://agentaudit.dev/packages/fetch" ];
        join LF [ "❓ **mcp-server-fetch** (unknown)";
                  "  ⚠️ Package not found in AgentAudit database" ] ]).
Proof. vm_compute. reflexivity. Qed.

Lemma scan_config_sorted_by_risk_witness :
  existsSync example_env
    (or_else None (getDefaultConfigPath (B := Reference.reference_builtins) example_env))
  = true
  /\ extractPackagesFromConfig (B := Reference.reference_builtins) example_env
       (or_else None (getDefaultConfigPath (B := Reference.reference_builtins) example_env))
     = Return ["mcp-server-fetch"; "fetch"]
  /\ mapM (fetchSkill (B := Reference.reference_builtins) example_env)
       ["mcp-server-fetch"; "fetch"]
     = Return [record_not_found; record_fetch]
  /\ Forall (fun r => is_score (latest_risk_score r) = true)
       [record_not_found; record_fetch]
  /\ Array_sort (by_risk_desc (B := Reference.reference_builtins))
       [record_not_found; record_fetch]
     = [record_fetch; record_not_found].
Proof.
  assert (P : extractPackagesFromConfig (B := Reference.reference_builtins) example_env
       (or_else None (getDefaultConfigPath (B := Reference.reference_builtins) example_env))
     = Return ["mcp-server-fetch"; "fetch"]) by (vm_compute; reflexivity).
  assert (R : mapM (fetchSkill (B := Reference.reference_builtins) example_env)
       ["mcp-server-fetch"; "fetch"]
     = Return [record_not_found; record_fetch]) by (vm_compute; reflexivity).
  assert (T : Forall (fun r => is_score (latest_risk_score r) = true)
       [record_not_found; record_fetch]) by (repeat constructor).
  split; [reflexivity|]. split; [exact P|]. split; [exact R|]. split; [exact T|].
  destruct (scan_config_sorted_by_risk (B := Reference.reference_builtins)
              example_env None ["mcp-server-fetch"; "fetch"]
              [record_not_found; record_fetch]
              eq_refl P ltac:(discriminate) R T)
    as (_ & _ & _ & _ & H & _).
  destruct (H record_fetch record_not_found eq_refl eq_refl) as (_ & H2).
  exact (H2 eq_refl).
Defined.

(** The example entry: its argument list yields one token, and its segment
    is that token followed by the key. *)
Lemma scan_servers_args_then_key_witness :
  assoc "args" [("args", JArr [JStr "-y"; JStr "mcp-server-fetch"])]
  = Some (JArr (map JStr ["-y"; "mcp-server-fetch"]))
  /\ entry_tokens config_fetch_entry = Return ["mcp-server-fetch"]
  /\ scan_servers [("fetch", config_fetch_entry)] []
     = (segs <- mapM entry_candidates [("fetch", config_fetch_entry)] ;;
        Return ([] ++ List.concat segs)%list).
Proof.
  destruct (scan_servers_args_then_key [("fetch", config_fetch_entry)] [])
    as (Hsegs & _ & Htoks).
  split; [reflexivity|]. split; [|exact Hsegs].
  exact (Htoks [("args", JArr [JStr "-y"; JStr "mcp-server-fetch"])]
               ["-y"; "mcp-server-fetch"] eq_refl).
Defined.

(** A package the example service does not know: the lookup returns a record
    that carries [error], with [null] scores, zero counts and the queried
    name. *)
Lemma fetchSkill_error_invariant_witness :
  exists r,
    fetchSkill (B := Reference.reference_builtins) example_env "nonexistent-pkg-xyz"
    = Return r
    /\ error r = Some "Package not found in AgentAudit database"
    /\ trust_score r = JNull /\ latest_risk_score r = JNull
    /\ total_findings r = JNum 0 /\ total_reports r = JNum 0
    /\ scan_type r = JStr "unknown"
    /\ slug r = JStr "nonexistent-pkg-xyz"
    /\ display_name r = JStr "nonexistent-pkg-xyz".
Proof.
  destruct (fetchSkill_error_invariant (B := Reference.reference_builtins)
              example_env "nonexistent-pkg-xyz" [])
    as ((r & Hr & Hinv) & _).
  assert (E : fetchSkill (B := Reference.reference_builtins) example_env
                "nonexistent-pkg-xyz"
              = Return (failure_record "nonexistent-pkg-xyz" "unknown"
                          "Package not found in AgentAudit database"))
    by (vm_compute; reflexivity).
  assert (Hrec : r = failure_record "nonexistent-pkg-xyz" "unknown"
                       "Package not found in AgentAudit database")
    by congruence.
  exists r. split; [exact Hr|]. split; [rewrite Hrec; reflexivity|].
  apply Hinv. rewrite Hrec. discriminate.
Defined.

(** ** Further properties of the code *)

Section MoreFacts.
Context {B : Builtins}.

(** *** The candidate list has no duplicates *)

Lemma Set_values_In (seen l : list string) (x : string) :
  In x (Set_values seen l) <-> In x l /\ existsb (String.eqb x) seen = false.
Proof.
  revert seen. induction l as [|y l IH]; intros seen; simpl.
  - tauto.
  - destruct (existsb (String.eqb y) seen) eqn:Hy.
    + rewrite IH. split.
      * intros (Hin & Hs). auto.
      * intros ([-> | Hin] & Hs); [congruence | auto].
    + simpl. rewrite IH. simpl. split.
      * intros [-> | (Hin & Hs)]; [auto|].
        apply orb_false_iff in Hs. destruct Hs as (_ & Hs). auto.
      * intros ([-> | Hin] & Hs); [auto|].
        destruct (String.eqb_spec x y) as [-> | Hne]; [auto|].
        right. split; [exact Hin|]. apply orb_false_iff. auto.
Qed.

Lemma Set_values_NoDup (seen l : list string) : NoDup (Set_values seen l).
Proof.
  revert seen. induction l as [|y l IH]; intros seen; simpl.
  - constructor.
  - destruct (existsb (String.eqb y) seen); [apply IH|].
    constructor; [|apply IH].
    rewrite Set_values_In. simpl. rewrite String.eqb_refl. simpl.
    intros (_ & H). discriminate H.
Qed.

Lemma Set_values_snoc (seen l : list string) (x : string) :
  Set_values seen (l ++ [x])
  = if existsb (String.eqb x) seen || existsb (String.eqb x) l
    then Set_values seen l
    else (Set_values seen l ++ [x])%list.
Proof.
  revert seen. induction l as [|y l IH]; intros seen; simpl.
  - rewrite orb_false_r. destruct (existsb (String.eqb x) seen); reflexivity.
  - destruct (existsb (String.eqb y) seen) eqn:Hy.
    + rewrite IH.
      destruct (String.eqb_spec x y) as [-> | Hne].
      * rewrite Hy. reflexivity.
      * reflexivity.
    + rewrite IH. simpl.
      replace ((x =? y)%string || existsb (String.eqb x) seen || existsb (String.eqb x) l)
        with (existsb (String.eqb x) seen || ((x =? y)%string || existsb (String.eqb x) l))
        by (destruct (x =? y)%string, (existsb (String.eqb x) seen); reflexivity).
      destruct (existsb (String.eqb x) seen || ((x =? y)%string || existsb (String.eqb x) l));
        reflexivity.
Qed.

Lemma Set_values_fixed (seen l : list string) :
  NoDup l -> (forall x, In x l -> existsb (String.eqb x) seen = false) ->
  Set_values seen l = l.
Proof.
  intros Hnd. revert seen. induction Hnd as [|y l Hy Hnd IH]; intros seen Hs; simpl.
  - reflexivity.
  - rewrite (Hs y) by (left; reflexivity). f_equal. apply IH.
    intros x Hx. simpl. rewrite (Hs x) by (right; exact Hx).
    destruct (String.eqb_spec x y) as [-> | _]; [contradiction | reflexivity].
Qed.

(** X1. Whatever the configuration, the list the extractor returns has no
    duplicates and holds exactly the strings that were pushed onto
    [packages]. *)
Theorem extractPackages_no_duplicates (raw : string) (out : list string) :
  extractPackagesFromText raw = Return out ->
  NoDup out
  /\ exists config pushed,
       JSON_parse raw = Return config
       /\ collectPackages config = Return pushed
       /\ forall x, In x out <-> In x pushed.
Proof.
  unfold extractPackagesFromText. intros H.
  destruct (JSON_parse raw) as [config|] eqn:Hparse; simpl in H; [|discriminate].
  destruct (collectPackages config) as [pushed|] eqn:Hpushed; simpl in H; [|discriminate].
  inversion H; subst. split; [apply Set_values_NoDup|].
  exists config, pushed. split; [reflexivity|]. split; [exact Hpushed|].
  intros x. rewrite Set_values_In. simpl. tauto.
Qed.

(** X2. The set keeps first occurrences in order: pushing a string that was
    pushed before changes nothing, pushing a new one puts it last; a list
    without duplicates comes back unchanged, so removing duplicates twice is
    removing them once. *)
Theorem Set_values_first_seen_order (l : list string) (x : string) :
  Set_values [] (l ++ [x])
  = (if existsb (String.eqb x) l then Set_values [] l
     else (Set_values [] l ++ [x])%list)
  /\ (NoDup l -> Set_values [] l = l)
  /\ Set_values [] (Set_values [] l) = Set_values [] l.
Proof.
  split; [rewrite Set_values_snoc; reflexivity|]. split.
  - intros H. apply Set_values_fixed; [exact H | reflexivity].
  - apply Set_values_fixed; [apply Set_values_NoDup | reflexivity].
Qed.

(** *** Which tokens and keys become candidates *)

Lemma arg_is_candidate_eq (a : string) :
  arg_is_candidate a
  = test_lower_or_at a && negb (String.eqb a "node") && negb (String.eqb a "npx").
Proof.
  destruct a as [|c [|c' rest]]; [reflexivity| |];
    destruct c as [[] [] [] [] [] [] [] []]; reflexivity.
Qed.

(** X3. A launch argument is kept exactly when its first character is a
    lower-case letter or [@] and it is neither "node" nor "npx"; the tests
    on a leading dash, slash or dot and on "-y" never decide anything.  So
    no kept token is empty or starts with a dash, a slash or a dot. *)
Theorem arg_is_candidate_characterised (a : string) :
  (arg_is_candidate a = true <->
     (exists c rest, a = String c rest
        /\ ((97 <= nat_of_ascii c <= 122)%nat \/ c = "@"%char))
     /\ a <> "node" /\ a <> "npx")
  /\ (arg_is_candidate a = true ->
        a <> "" /\ startsWith a "-" = false /\ startsWith a "/" = false
        /\ startsWith a "." = false).
Proof.
  split.
  - rewrite arg_is_candidate_eq, !andb_true_iff, !negb_true_iff, !String.eqb_neq.
    assert (T : test_lower_or_at a = true <->
                exists c rest, a = String c rest
                  /\ ((97 <= nat_of_ascii c <= 122)%nat \/ c = "@"%char)).
    { destruct a as [|c rest].
      - split; [discriminate | intros (c & rest & E & _); discriminate].
      - change (test_lower_or_at (String c rest))
          with (((97 <=? nat_of_ascii c)%nat && (nat_of_ascii c <=? 122)%nat)
                || (nat_of_ascii c =? 64)%nat).
        rewrite orb_true_iff, andb_true_iff, !Nat.leb_le, Nat.eqb_eq. split.
        + intros [H | H]; exists c, rest; (split; [reflexivity|]).
          * left. exact H.
          * right. rewrite <- (ascii_nat_embedding c), H. reflexivity.
        + intros (c' & rest' & E & H). inversion E; subst.
          destruct H as [H | ->]; [left; exact H | right; reflexivity]. }
    rewrite T. tauto.
  - unfold arg_is_candidate. rewrite !andb_true_iff, !negb_true_iff.
    intros ((((H1 & H2) & H3) & H4) & _).
    repeat split; try assumption.
    intros ->. discriminate H4.
Qed.

Lemma scan_args_kept (args : list json) (packages out : list string) :
  scan_args args packages = Return out ->
  forall x, In x out ->
    In x packages \/ (arg_is_candidate x = true /\ In (JStr x) args).
Proof.
  revert packages out. induction args as [|arg rest IH]; simpl; intros packages out H x Hx.
  - inversion H; subst. auto.
  - destruct arg as [| | |a| |]; simpl in H; try discriminate.
    destruct (arg_is_candidate a) eqn:Ka.
    + destruct (IH _ _ H x Hx) as [Hin | (Hk & Hin)]; [|auto].
      apply in_app_or in Hin. destruct Hin as [Hin | [<- | []]]; auto.
    + destruct (IH _ _ H x Hx) as [Hin | (Hk & Hin)]; auto.
Qed.

Lemma mapM_Forall2 {A C} (f : A -> result C) (l : list A) (out : list C) :
  mapM f l = Return out -> Forall2 (fun x y => f x = Return y) l out.
Proof.
  revert out. induction l as [|x l IH]; simpl; intros out H.
  - inversion H. constructor.
  - destruct (f x) as [y|] eqn:Fx; simpl in H; [|discriminate].
    destruct (mapM f l) as [ys|]; simpl in H; [|discriminate].
    inversion H; subst. constructor; [exact Fx | apply IH; reflexivity].
Qed.

Lemma launch_argument_cons (kv : string * json) (entries : list (string * json))
  (x : string) :
  launch_argument entries x -> launch_argument (kv :: entries) x.
Proof.
  intros (key & val & args & Hin & Ha & Hx).
  exists key, val, args. split; [right; exact Hin | auto].
Qed.

Lemma scan_servers_members (entries : list (string * json)) (packages out : list string) :
  scan_servers entries packages = Return out ->
  (forall x, In x packages -> In x out)
  /\ (forall k, In k (map fst entries) -> In k out)
  /\ (forall x, In x out ->
        In x packages \/ In x (map fst entries)
        \/ (arg_is_candidate x = true /\ launch_argument entries x)).
Proof.
  revert packages out. induction entries as [|[key val] rest IH]; intros packages out H.
  - simpl in H. inversion H; subst. simpl. tauto.
  - rewrite scan_servers_cons in H.
    destruct (entry_candidates (key, val)) as [seg|] eqn:Hseg; simpl in H; [|discriminate].
    destruct (IH _ _ H) as (Hpk & Hkeys & Hout).
    unfold entry_candidates in Hseg. simpl in Hseg.
    destruct (entry_tokens val) as [toks|] eqn:Htoks; simpl in Hseg; [|discriminate].
    inversion Hseg; subst seg. clear Hseg.
    assert (Hkept : forall x, In x toks ->
              arg_is_candidate x = true /\ launch_argument ((key, val) :: rest) x).
    { intros x Hx. unfold entry_tokens in Htoks.
      destruct (get val "args") as [a|] eqn:Hget; simpl in Htoks; [|discriminate].
      destruct (iterate (coalesce a (JArr []))) as [args|] eqn:Hit; simpl in Htoks;
        [|discriminate].
      destruct (scan_args_kept _ _ _ Htoks x Hx) as [[] | (Hk & Hin)].
      split; [exact Hk|]. exists key, val, args.
      split; [left; reflexivity|]. split; [|exact Hin].
      unfold entry_args. rewrite Hget. simpl. exact Hit. }
    split; [|split].
    + intros x Hx. apply Hpk. apply in_or_app. left. exact Hx.
    + simpl. intros k [<- | Hk]; [|apply Hkeys; exact Hk].
      apply Hpk. apply in_or_app. right. apply in_or_app. right. left. reflexivity.
    + intros x Hx. destruct (Hout x Hx) as [Hin | [Hin | (Hk & Hl)]].
      * apply in_app_or in Hin. destruct Hin as [Hin | Hin]; [auto|].
        apply in_app_or in Hin. destruct Hin as [Hin | [<- | []]].
        -- right. right. apply Hkept. exact Hin.
        -- right. left. left. reflexivity.
      * right. left. right. exact Hin.
      * right. right. split; [exact Hk | apply launch_argument_cons; exact Hl].
Qed.

(** X4. When the server map is an object, every one of its keys is among
    the candidates, whatever the key looks like, and every candidate is
    either such a key or a string of the argument list of one of the
    entries that passed the token tests. *)
Theorem server_keys_are_candidates (raw : string) (config : json)
  (entries : list (string * json)) (out : list string) :
  JSON_parse raw = Return config ->
  field config "mcpServers" = Some (JObj entries) ->
  extractPackagesFromText raw = Return out ->
  (forall k, In k (map fst entries) -> In k out)
  /\ (forall x, In x out ->
        In x (map fst entries)
        \/ (arg_is_candidate x = true /\ launch_argument entries x)).
Proof.
  intros Hparse Hmap H. unfold extractPackagesFromText in H.
  rewrite Hparse in H. simpl in H.
  destruct (collectPackages config) as [pushed|] eqn:Hpushed; simpl in H; [|discriminate].
  inversion H; subst out. clear H.
  assert (Hscan : scan_servers entries [] = Return pushed).
  { unfold collectPackages in Hpushed.
    destruct config as [| | | | |fields]; simpl in Hmap; try discriminate.
    simpl in Hpushed. rewrite Hmap in Hpushed. simpl in Hpushed.
    exact Hpushed. }
  destruct (scan_servers_members _ _ _ Hscan) as (_ & Hkeys & Hout).
  split.
  - intros k Hk. apply Set_values_In. split; [apply Hkeys; exact Hk | reflexivity].
  - intros x Hx. apply Set_values_In in Hx. destruct Hx as (Hx & _).
    destruct (Hout x Hx) as [[] | H]. exact H.
Qed.

(** *** Where the server map is looked up, and what a scan answers when
    there is nothing to scan *)

Lemma coalesce_nullish (v : option json) (d : json) : nullish v -> coalesce v d = d.
Proof. intros [-> | ->]; reflexivity. Qed.

Lemma coalesce_value (v d : json) : v <> JNull -> coalesce (Some v) d = v.
Proof. destruct v; simpl; intros H; try reflexivity. contradiction. Qed.

Lemma collectPackages_eq (config : json) :
  config <> JNull ->
  collectPackages config
  = (entries <- Object_entries
                  (coalesce (field config "mcpServers")
                     (coalesce (field config "mcp_servers") (JObj []))) ;;
     scan_servers entries []).
Proof.
  intros H. unfold collectPackages. rewrite !(get_field config) by assumption.
  reflexivity.
Qed.

(** X5. The server map is read from [mcpServers]; [mcp_servers] is read only
    when [mcpServers] is missing or [null].  So a configuration object with
    a map under [mcpServers] gives the same candidates whatever else it
    holds, and one with the map under [mcp_servers] alone gives the
    candidates it would give with the map under [mcpServers]. *)
Theorem server_map_precedence (fields : list (string * json)) (v : json) :
  v <> JNull ->
  (assoc "mcpServers" fields = Some v ->
     collectPackages (JObj fields) = collectPackages (JObj [("mcpServers", v)]))
  /\ (nullish (assoc "mcpServers" fields) ->
      assoc "mcp_servers" fields = Some v ->
      collectPackages (JObj fields) = collectPackages (JObj [("mcpServers", v)])).
Proof.
  intros Hv.
  assert (R : collectPackages (JObj [("mcpServers", v)])
              = (entries <- Object_entries v ;; scan_servers entries [])).
  { rewrite collectPackages_eq by discriminate. simpl field.
    rewrite coalesce_value by assumption. reflexivity. }
  split.
  - intros H. rewrite R, collectPackages_eq by discriminate. simpl field.
    rewrite H, coalesce_value by assumption. reflexivity.
  - intros Hn H. rewrite R, collectPackages_eq by discriminate. simpl field.
    rewrite (coalesce_nullish _ _ Hn), H, coalesce_value by assumption. reflexivity.
Qed.

Lemma scan_config_extracted (env : Env) (path : option string) (raw : string)
  (config : json) :
  let resolved := or_else path (getDefaultConfigPath env) in
  existsSync env resolved = true ->
  readFileSync env resolved = Return raw ->
  JSON_parse raw = Return config ->
  scan_config env path
  = match collectPackages config with
    | Throw message => Return ("❌ Failed to parse config: " ++ message)
    | Return pushed =>
        match Set_values [] pushed with
        | [] => Return "No packages found in config."
        | packages => scan_report env resolved packages
        end
    end.
Proof.
  intros resolved Hex Hread Hparse. unfold scan_config. fold resolved.
  rewrite Hex. simpl negb. cbv iota.
  unfold extractPackagesFromConfig, extractPackagesFromText.
  rewrite Hread. simpl bind. rewrite Hparse. simpl bind.
  destruct (collectPackages config) as [pushed|message]; simpl bind; [|reflexivity].
  destruct (Set_values [] pushed); reflexivity.
Qed.

(** X6. A configuration file that parses to a value other than [null] with
    no server map under either name, or with a server map, under either
    name, that has no entries, makes the scan answer "No packages found in
    config.", whatever the service would have answered. *)
Theorem scan_config_nothing_to_scan (env : Env) (path : option string)
  (raw : string) (config : json) :
  let resolved := or_else path (getDefaultConfigPath env) in
  existsSync env resolved = true ->
  readFileSync env resolved = Return raw ->
  JSON_parse raw = Return config ->
  config <> JNull ->
  (nullish (field config "mcpServers") /\ nullish (field config "mcp_servers")
   \/ Object_entries (server_map config) = Return []) ->
  scan_config env path = Return "No packages found in config.".
Proof.
  intros resolved Hex Hread Hparse Hconfig Hmap.
  rewrite (scan_config_extracted env path raw config Hex Hread Hparse).
  rewrite collectPackages_eq by assumption. fold (server_map config).
  destruct Hmap as [(H1 & H2) | He].
  - unfold server_map. rewrite !coalesce_nullish by assumption. reflexivity.
  - rewrite He. reflexivity.
Qed.



(** *** Formatting, and the lookup handler *)

(** X8. The shape of a formatted record: the header is always the first
    line; a record with a non-empty error has exactly two lines; any other
    record that formats has between six and eight lines, the last one being
    the details link. *)
Theorem formatResult_lines_shape (r : SkillResult) (lines : list string) :
  formatResult_lines r = Return lines ->
  hd "" lines = format_header r
  /\ (error_truthy r = true -> List.length lines = 2%nat)
  /\ (error_truthy r = false ->
        (6 <= List.length lines <= 8)%nat
        /\ last lines "" = "  Details: https://agentaudit.dev/packages/" ++ ToString (slug r)).
Proof.
  unfold formatResult_lines. intros H.
  destruct (error_truthy r).
  - inversion H; subst. split; [reflexivity|]. split; [reflexivity | discriminate].
  - destruct (call_toUpperCase (latest_result r)) as [verdict|]; simpl bind in H;
      [|discriminate].
    cbv zeta in H.
    destruct (truthy (last_audited_at r)).
    + destruct (Date_toISOString (last_audited_at r)) as [iso|]; simpl bind in H;
        [|discriminate].
      inversion H; subst. split; [reflexivity|]. split; [discriminate|]. intros _.
      destruct (truthy (source_url r)); simpl; split; try lia; reflexivity.
    + simpl bind in H. inversion H; subst.
      split; [reflexivity|]. split; [discriminate|]. intros _.
      destruct (truthy (source_url r)); simpl; split; try lia; reflexivity.
Qed.

Lemma formatResult_failure (name verdict message : string) :
  message <> "" ->
  formatResult (failure_record name verdict message) = Return (failure_text name message).
Proof.
  intros H.
  assert (T : error_truthy (failure_record name verdict message) = true).
  { unfold error_truthy, failure_record. cbn [error].
    apply String.eqb_neq in H. rewrite H. reflexivity. }
  unfold formatResult, formatResult_lines. rewrite T. reflexivity.
Qed.

Lemma formatResult_failure_total (name verdict message : string) :
  exists text, formatResult (failure_record name verdict message) = Return text.
Proof.
  destruct (String.eqb_spec message "") as [-> | H].
  - eexists. reflexivity.
  - eexists. apply formatResult_failure. exact H.
Qed.

Lemma check_package_eq (env : Env) (name : string) :
  check_package env name
  = formatResult match skill_request env name with
                 | Throw message => failure_record name "error" message
                 | Return data =>
                     if truthy data then success_record name data
                     else failure_record name "unknown"
                            "Package not found in AgentAudit database"
                 end.
Proof. unfold check_package. rewrite fetchSkill_eq. reflexivity. Qed.

(** X9. A lookup that fails is reported, never thrown: when the request
    throws, the handler answers with the header of the queried name and a
    warning line with the error message; when the service answers "not
    found" or with a falsy payload, with the same header and the not-found
    warning. *)
Theorem check_package_failed_lookup (env : Env) (name : string) :
  (forall message, skill_request env name = Throw message -> message <> "" ->
     check_package env name = Return (failure_text name message))
  /\ (forall data, skill_request env name = Return data -> truthy data = false ->
        check_package env name
        = Return (failure_text name "Package not found in AgentAudit database"))
  /\ (match skill_request env name with
      | Throw _ => True
      | Return data => truthy data = false
      end -> exists text, check_package env name = Return text).
Proof.
  rewrite check_package_eq. split; [|split].
  - intros message -> H. apply formatResult_failure. exact H.
  - intros data -> ->. apply formatResult_failure. discriminate.
  - destruct (skill_request env name) as [data|message].
    + intros ->. apply formatResult_failure_total.
    + intros _. apply formatResult_failure_total.
Qed.

(** X10. A payload that passes [!data] but carries none of the members the
    lookup reads (the empty object, an object with other members only, an
    array, a number, [true]) is reported with every default: unknown glyph,
    the queried name, "N/A" scores, verdict UNKNOWN, zero findings from zero
    audits, no source or date line, and the details link of the queried
    name. *)
Theorem check_package_defaults (env : Env) (name : string) (data : json) :
  skill_request env name = Return data ->
  truthy data = true ->
  (forall k, In k skill_members -> nullish (field data k)) ->
  check_package env name
  = Return (join LF
      [ glyph_unknown ++ " **" ++ name ++ "** (unknown)";
        "  Trust Score: N/A/100";
        "  Risk Score: N/A/100";
        "  Verdict: " ++ toUpperCase "unknown";
        "  Findings: 0 (from 0 audits)";
        "  Details: https://agentaudit.dev/packages/" ++ name ]).
Proof.
  intros Hreq Htruthy Hnone. rewrite check_package_eq, Hreq, Htruthy.
  unfold success_record.
  rewrite !coalesce_nullish by (apply Hnone; unfold skill_members; simpl; tauto).
  reflexivity.
Qed.


Lemma mapM_throws {A C} (f : A -> result C) (l : list A) (x : A) (message : string) :
  In x l -> f x = Throw message -> exists message', mapM f l = Throw message'.
Proof.
  induction l as [|y l IH]; simpl; intros Hin Hx; [contradiction|].
  destruct Hin as [-> | Hin].
  - rewrite Hx. simpl. eauto.
  - destruct (f y); simpl; [|eauto].
    destruct (IH Hin Hx) as (m & ->). simpl. eauto.
Qed.

Lemma mapM_In_image {A C} (f : A -> result C) (l : list A) (out : list C)
  (x : A) (y : C) :
  mapM f l = Return out -> In x l -> f x = Return y -> In y out.
Proof.
  revert out. induction l as [|z l IH]; simpl; intros out H Hin Hx; [contradiction|].
  destruct (f z) as [y0|] eqn:Fz; simpl in H; [|discriminate].
  destruct (mapM f l) as [ys|]; simpl in H; [|discriminate].
  inversion H; subst. destruct Hin as [-> | Hin].
  - left. congruence.
  - right. apply (IH ys eq_refl Hin Hx).
Qed.

(** X12. The scan does not catch it either: if the record of one candidate
    cannot be formatted, the scan throws and reports nothing, whatever the
    other lookups gave. *)
Theorem scan_report_aborts (env : Env) (resolved : string) (packages : list string)
  (name : string) (r : SkillResult) (message : string) :
  In name packages ->
  fetchSkill env name = Return r ->
  formatResult r = Throw message ->
  exists message', scan_report env resolved packages = Throw message'.
Proof.
  intros Hin Hr Hfmt. unfold scan_report.
  destruct (mapM_fetchSkill_total env packages) as (results & Hres).
  rewrite Hres. simpl bind.
  assert (Hsorted : In r (Array_sort by_risk_desc results)).
  { eapply Permutation_in; [apply Array_sort_perm|].
    exact (mapM_In_image _ _ _ _ _ Hres Hin Hr). }
  destruct (mapM_throws _ _ _ _ Hsorted Hfmt) as (m & ->). simpl. eauto.
Qed.

(** *** The HTTP adapter and the search handler at their edges *)

Lemma startsWith_spec (s p : string) :
  startsWith s p = true <-> exists rest, s = p ++ rest.
Proof.
  revert p. induction s as [|b s IH]; intros [|a p]; simpl.
  - split; [exists ""; reflexivity | reflexivity].
  - split; [discriminate | intros (rest & E); discriminate].
  - split; [exists (String b s); reflexivity | reflexivity].
  - rewrite andb_true_iff, Ascii.eqb_eq, IH. split.
    + intros (-> & rest & ->). exists rest. reflexivity.
    + intros (rest & E). inversion E; subst. split; [reflexivity | eauto].
Qed.


(** X13. On a response whose status is not in 200-299, the adapter never
    returns a payload: it returns [null] exactly when the body starts with
    the characters [<!DOCTYPE] or [<html], in this spelling, and throws
    otherwise. *)
Theorem apiFetch_non_success (env : Env) (url : string) (status : Z) (text : string) :
  fetch env url = Response status text ->
  res_ok status = false ->
  (forall v, apiFetch env url = Return v -> v = JNull)
  /\ (apiFetch env url = Return JNull <->
        exists rest, text = "<!DOCTYPE" ++ rest \/ text = "<html" ++ rest)
  /\ ((forall rest, text <> "<!DOCTYPE" ++ rest /\ text <> "<html" ++ rest) ->
        exists message, apiFetch env url = Throw message).
Proof.
  intros Hfetch Hok. unfold apiFetch. rewrite Hfetch, Hok. simpl negb. cbv iota.
  assert (Hhtml : looks_like_html text = true <->
                  exists rest, text = "<!DOCTYPE" ++ rest \/ text = "<html" ++ rest).
  { unfold looks_like_html. rewrite orb_true_iff, !startsWith_spec. split.
    - intros [(rest & E) | (rest & E)]; exists rest; auto.
    - intros (rest & [E | E]); [left | right]; exists rest; exact E. }
  destruct (looks_like_html text).
  - split; [intros v H; inversion H; reflexivity|]. split.
    + split; [intros _; apply Hhtml; reflexivity | reflexivity].
    + intros Hno. destruct (proj1 Hhtml eq_refl) as (rest & [E | E]);
        destruct (Hno rest) as (N1 & N2); contradiction.
  - split; [intros v H; discriminate H|]. split.
    + split; [discriminate | intros H; apply Hhtml in H; discriminate H].
    + intros _. eauto.
Qed.




(** X16. When the package list cannot be had, the search answers with a
    text and says which way it failed: a rejected request or a non-success
    status with a body that is not HTML gives "Search failed" with the
    error message; an HTML body, or a payload that is not an array, gives
    "Failed to fetch package list". *)
Theorem search_packages_list_unavailable (env : Env) (query : string)
  (limit : option Z) :
  (forall message, fetch env (API_BASE ++ "/skills") = FetchReject message ->
     search_packages env query limit = Return ("❌ Search failed: " ++ message))
  /\ (forall status text,
        fetch env (API_BASE ++ "/skills") = Response status text ->
        looks_like_html text = true ->
        search_packages env query limit = Return "❌ Failed to fetch package list")
  /\ (forall status text,
        fetch env (API_BASE ++ "/skills") = Response status text ->
        looks_like_html text = false -> res_ok status = false ->
        search_packages env query limit
        = Return ("❌ Search failed: HTTP " ++ string_of_Z status ++ ": "
                    ++ slice_to 200 text))
  /\ (forall all,
        apiFetch env (API_BASE ++ "/skills") = Return all ->
        (forall items, all <> JArr items) ->
        search_packages env query limit = Return "❌ Failed to fetch package list").
Proof.
  unfold search_packages. repeat split.
  - intros message H. unfold apiFetch. rewrite H. reflexivity.
  - intros status text H Hhtml. unfold apiFetch. rewrite H, Hhtml.
    destruct (res_ok status); reflexivity.
  - intros status text H Hhtml Hok. unfold apiFetch. rewrite H, Hhtml, Hok.
    reflexivity.
  - intros all H Hno. rewrite H. simpl bind.
    destruct all; try reflexivity. destruct (Hno items eq_refl).
Qed.

Lemma filterM_throws {A} (f : A -> result bool) (l : list A) (x : A) (message : string) :
  In x l -> f x = Throw message -> exists message', filterM f l = Throw message'.
Proof.
  induction l as [|y l IH]; simpl; intros Hin Hx; [contradiction|].
  destruct Hin as [-> | Hin].
  - rewrite Hx. simpl. eauto.
  - destruct (f y); simpl; [|eauto].
    destruct (IH Hin Hx) as (m & ->). simpl. eauto.
Qed.

(** X17. The filter runs over the whole list before anything is cut or
    rendered, so one malformed entry anywhere in the list, a [null] or an
    entry whose slug is not a string, makes every search answer
    "Search failed", whatever the query and the limit. *)
Theorem search_packages_malformed_entry (env : Env) (query : string)
  (limit : option Z) (items : list json) (s : json) :
  apiFetch env (API_BASE ++ "/skills") = Return (JArr items) ->
  In s items ->
  s = JNull \/ string_or_absent (field s "slug") = false ->
  exists message,
    search_packages env query limit = Return ("❌ Search failed: " ++ message).
Proof.
  intros Hfetch Hin Hbad.
  assert (Hthrow : exists message, search_matches (toLowerCase query) s = Throw message).
  { destruct Hbad as [-> | Hslug]; [eexists; reflexivity|].
    assert (Hs : s <> JNull) by (intros ->; discriminate Hslug).
    unfold search_matches. rewrite (get_field s "slug" Hs). simpl bind.
    destruct (field s "slug") as [[]|]; simpl in Hslug; try discriminate;
      eexists; reflexivity. }
  destruct Hthrow as (m & Hm).
  destruct (filterM_throws _ _ _ _ Hin Hm) as (m' & Hf).
  unfold search_packages, search_select. rewrite Hfetch. simpl bind.
  rewrite Hf. simpl. eauto.
Qed.



(** *** The order and the counts of a scan report *)

Section StableOrder.
Context {A : Type} (cmp : A -> A -> option Z) (key : A -> Z) (P : A -> Prop).
Hypothesis cmp_key : forall a b, P a -> P b -> cmp a b = Some (key b - key a).

Lemma sort_insert_same_key (k : Z) (x : A) (l : list A) :
  P x -> Forall P l ->
  filter (fun r => key r =? k) (sort_insert cmp x l)
  = filter (fun r => key r =? k) (x :: l).
Proof.
  intros Px Pl. induction Pl as [|y l Py Pl IH]; [reflexivity|].
  simpl sort_insert. rewrite (cmp_key x y Px Py). unfold goes_after.
  destruct (Z.ltb_spec 0 (key y - key x)) as [Hlt | _]; [|reflexivity].
  simpl filter. simpl filter in IH. rewrite IH.
  destruct (Z.eqb_spec (key y) k) as [Ey | _]; [|reflexivity].
  destruct (Z.eqb_spec (key x) k) as [Ex | _]; [lia | reflexivity].
Qed.

Lemma Array_sort_same_key (k : Z) (l : list A) :
  Forall P l ->
  filter (fun r => key r =? k) (Array_sort cmp l) = filter (fun r => key r =? k) l.
Proof.
  induction 1 as [|x l Px Pl IH]; [reflexivity|].
  simpl Array_sort. rewrite sort_insert_same_key.
  - simpl. rewrite IH. reflexivity.
  - exact Px.
  - eapply Permutation_Forall; [apply Array_sort_perm | exact Pl].
Qed.

End StableOrder.

Lemma Array_sort_fixed {A} (cmp : A -> A -> option Z) (l : list A) :
  (forall x y, In x l -> In y l -> goes_after (cmp x y) = false) ->
  Array_sort cmp l = l.
Proof.
  induction l as [|x l IH]; intros H; [reflexivity|].
  simpl. rewrite IH by (intros a b Ha Hb; apply H; right; assumption).
  destruct l as [|y l]; [reflexivity|].
  simpl. rewrite H by (simpl; auto). reflexivity.
Qed.

(** X19. The sort of the scan is stable: among the looked-up records, those
    with the same risk score, and in particular all those without a score,
    are rendered in the order in which their candidates were found. *)
Theorem scan_sort_keeps_lookup_order (results : list SkillResult) (k : Z) :
  Forall (fun r => is_score (latest_risk_score r) = true) results ->
  filter (fun r => risk_key r =? k) (Array_sort by_risk_desc results)
  = filter (fun r => risk_key r =? k) results.
Proof.
  intros H.
  apply (Array_sort_same_key by_risk_desc risk_key
           (fun r => is_score (latest_risk_score r) = true)).
  - intros a b Ha Hb. apply by_risk_desc_key; assumption.
  - exact H.
Qed.

Lemma filter_none {A} (f : A -> bool) (l : list A) :
  (forall x, In x l -> f x = false) -> filter f l = [].
Proof.
  induction l as [|x l IH]; intros H; [reflexivity|].
  simpl. rewrite H by (left; reflexivity). apply IH.
  intros y Hy. apply H. right. exact Hy.
Qed.

Lemma failed_lookup_record (env : Env) (name : string) :
  lookup_fails env name ->
  exists verdict message,
    message <> ""
    /\ fetchSkill env name = Return (failure_record name verdict message)
    /\ failure_text name message = lookup_failure_text env name.
Proof.
  unfold lookup_fails, lookup_failure_text. rewrite fetchSkill_eq.
  destruct (skill_request env name) as [data|message].
  - intros ->. exists "unknown", "Package not found in AgentAudit database".
    split; [discriminate|]. split; reflexivity.
  - intros H. exists "error", message. split; [exact H|]. split; reflexivity.
Qed.

Lemma failed_lookups (env : Env) (packages : list string) :
  Forall (lookup_fails env) packages ->
  exists results,
    mapM (fetchSkill env) packages = Return results
    /\ List.length results = List.length packages
    /\ Forall (fun r => latest_risk_score r = JNull /\ error_truthy r = true) results
    /\ mapM formatResult results = Return (map (lookup_failure_text env) packages).
Proof.
  induction 1 as [|name packages Hname _ IH].
  - exists []. repeat split; constructor.
  - destruct IH as (results & Hres & Hlen & Hall & Hfmt).
    destruct (failed_lookup_record env name Hname) as (verdict & message & Hne & Hr & Ht).
    exists (failure_record name verdict message :: results).
    split; [simpl; rewrite Hr, Hres; reflexivity|].
    split; [simpl; rewrite Hlen; reflexivity|].
    split.
    + constructor; [|exact Hall]. split; [reflexivity|].
      unfold error_truthy, failure_record. cbn [error].
      apply String.eqb_neq in Hne. rewrite Hne. reflexivity.
    + simpl mapM. rewrite (formatResult_failure name verdict message Hne), Hfmt, Ht.
      reflexivity.
Qed.

(** X20. When every lookup of a scan fails, the scan still answers with a
    full report: the number of candidates as "packages checked", 0 with
    elevated risk, and for every candidate, in candidate order, its name
    with the warning line of its failure. *)
Theorem scan_report_all_lookups_fail (env : Env) (resolved : string)
  (packages : list string) :
  Forall (lookup_fails env) packages ->
  scan_report env resolved packages
  = Return (join (LF ++ LF)
      (("🔍 Scanned " ++ resolved)
       :: ("📦 " ++ string_of_nat (List.length packages)
             ++ " packages checked | 0 with elevated risk" ++ LF)
       :: map (lookup_failure_text env) packages)).
Proof.
  intros H. destruct (failed_lookups env packages H) as (results & Hres & Hlen & Hall & Hfmt).
  unfold scan_report. rewrite Hres. simpl bind.
  rewrite Forall_forall in Hall.
  assert (Hrisky : filter is_risky results = []).
  { apply filter_none. intros r Hr. destruct (Hall r Hr) as (_ & He).
    unfold is_risky. rewrite He. reflexivity. }
  assert (Hsort : Array_sort by_risk_desc results = results).
  { apply Array_sort_fixed. intros x y Hx Hy.
    destruct (Hall x Hx) as (Ex & _). destruct (Hall y Hy) as (Ey & _).
    unfold by_risk_desc. rewrite Ex, Ey. reflexivity. }
  rewrite Hsort, Hfmt, Hrisky. unfold scan_summary. rewrite Hlen. reflexivity.
Qed.

(** *** The statistics, registration and report handlers *)

(** X21. The statistics handler never throws: a failed request is answered
    with its error message, and an HTML or falsy answer with "AgentAudit API
    unreachable". *)
Theorem get_stats_error_boundary (env : Env) :
  (exists text, get_stats env = Return text)
  /\ (forall message, apiFetch env (API_BASE ++ "/health") = Throw message ->
        get_stats env = Return ("❌ " ++ message))
  /\ (forall health, apiFetch env (API_BASE ++ "/health") = Return health ->
        truthy health = false ->
        get_stats env = Return "❌ AgentAudit API unreachable").
Proof.
  split; [|split].
  - unfold get_stats. apply try_catch_total. eauto.
  - intros message H. unfold get_stats. rewrite H. reflexivity.
  - intros health H Hf. unfold get_stats. rewrite H. simpl bind. rewrite Hf.
    reflexivity.
Qed.

(** X22. A health payload without a [db] member, or with a [db] that is
    [null], is not an object, or has none of the three count members, still
    gives the full statistics block, with "?" for each of the three counts;
    a missing [status] is printed as "undefined". *)
Theorem get_stats_missing_counts (env : Env) (health : json) :
  apiFetch env (API_BASE ++ "/health") = Return health ->
  truthy health = true ->
  (forall k, In k count_members -> nullish (optional_field (field health "db") k)) ->
  get_stats env
  = Return (join LF
      [ "📊 **AgentAudit Stats**";
        "  Status: " ++ ToString_opt (field health "status");
        "  Total Findings: ?";
        "  Total Packages: ?";
        "  Registered Agents: ?";
        "  Website: https://agentaudit.dev";
        "  API: https://agentaudit.dev/api/health" ])
  /\ (field health "status" = None ->
        ToString_opt (field health "status") = "undefined").
Proof.
  intros H Ht Hdb. split; [|intros ->; reflexivity].
  unfold get_stats. rewrite H. simpl bind. rewrite Ht. simpl negb. cbv iota.
  rewrite !(get_field health) by (apply truthy_not_null; exact Ht).
  simpl bind.
  rewrite !coalesce_nullish by (apply Hdb; unfold count_members; simpl; tauto).
  reflexivity.
Qed.

Section Posting.
Context {S : Serializer} (post : PostEnv).


Lemma assoc_optional_member (k k' : string) (x : option string)
  (rest : list (string * json)) :
  k <> k' -> assoc k (optional_member k' x ++ rest)%list = assoc k rest.
Proof.
  intros H. unfold optional_member.
  destruct x as [s|]; [|reflexivity].
  destruct (negb (String.eqb s "")); [|reflexivity].
  simpl. apply String.eqb_neq in H. rewrite H. reflexivity.
Qed.

(** X24. The report that is sent always has the members [package_name],
    [risk_score], [result] and [findings_count]; [findings_count] is the
    number of findings given, 0 when none are given, so it always agrees
    with the [findings] array that is sent; and [source_url] is sent exactly
    when it is given and not empty. *)
Theorem report_body_members (package_name : string)
  (package_type source_url : option string) (risk_score : Z) (result_ : string)
  (max_severity : option string) (findings : option (list json)) :
  let body := report_body package_name package_type source_url risk_score result_
                max_severity findings in
  assoc "package_name" body = Some (JStr package_name)
  /\ assoc "risk_score" body = Some (JNum risk_score)
  /\ assoc "result" body = Some (JStr result_)
  /\ assoc "findings_count" body
     = Some (JNum (Z.of_nat (List.length match findings with
                                         | Some fs => fs
                                         | None => []
                                         end)))
  /\ assoc "findings" body = option_map JArr findings
  /\ (assoc "source_url" body = None <-> source_url = None \/ source_url = Some "")
  /\ (forall url, source_url = Some url -> url <> "" ->
        assoc "source_url" body = Some (JStr url)).
Proof.
  intros body. subst body. unfold report_body.
  split; [reflexivity|]. split; [reflexivity|]. split; [reflexivity|].
  split; [destruct findings; reflexivity|].
  split.
  - cbn [app assoc String.eqb Ascii.eqb Bool.eqb andb].
    rewrite !assoc_optional_member by discriminate.
    destruct findings; reflexivity.
  - assert (E : assoc "source_url"
                  ([("package_name", JStr package_name); ("risk_score", JNum risk_score);
                    ("result", JStr result_);
                    ("findings_count",
                     coalesce (optional_length (option_map JArr findings)) (JNum 0))]
                   ++ optional_member "package_type" package_type
                   ++ optional_member "source_url" source_url
                   ++ optional_member "max_severity" max_severity
                   ++ match findings with
                      | Some fs => [("findings", JArr fs)]
                      | None => []
                      end)%list
                = match source_url with
                  | Some s => if String.eqb s "" then None else Some (JStr s)
                  | None => None
                  end).
    { cbn [app assoc String.eqb Ascii.eqb Bool.eqb andb].
      rewrite assoc_optional_member by discriminate.
      unfold optional_member at 1.
      destruct source_url as [s|].
      - destruct (String.eqb s ""); simpl negb; cbv iota.
        + simpl app. rewrite assoc_optional_member by discriminate.
          destruct findings; reflexivity.
        + reflexivity.
      - simpl app. rewrite assoc_optional_member by discriminate.
        destruct findings; reflexivity. }
    rewrite E. split.
    + destruct source_url as [s|]; [|split; auto].
      destruct (String.eqb_spec s "") as [-> | H]; [split; auto|].
      split; [discriminate|].
      intros [H' | H']; [discriminate | congruence].
    + intros url -> H. apply String.eqb_neq in H. rewrite H. reflexivity.
Qed.

(** X25. Submitting a report never throws.  A rejected request or an
    unreadable body is answered with the error message; a refusal with
    "Submit failed" followed by the JSON text of the payload, unchanged;
    and after a success the two counts are the lengths of the arrays in the
    payload, 0 for one that is missing. *)
Theorem submit_report_answers (api_key package_name : string)
  (package_type source_url : option string) (risk_score : Z) (result_ : string)
  (max_severity : option string) (findings : option (list json)) :
  let sent :=
    post (API_BASE ++ "/reports")
      [("Content-Type", "application/json"); ("Authorization", "Bearer " ++ api_key)]
      (JObj (report_body package_name package_type source_url risk_score result_
               max_severity findings)) in
  let answer :=
    submit_report post api_key package_name package_type source_url risk_score
      result_ max_severity findings in
  (exists text, answer = Return text)
  /\ (forall message, sent = PostReject message -> answer = Return ("❌ " ++ message))
  /\ (forall status statusText message,
        sent = PostResponse status statusText (Throw message) ->
        answer = Return ("❌ " ++ message))
  /\ (forall status statusText data,
        sent = PostResponse status statusText (Return data) -> res_ok status = false ->
        answer = Return ("❌ Submit failed: " ++ JSON_stringify data))
  /\ (forall status statusText data,
        sent = PostResponse status statusText (Return data) -> res_ok status = true ->
        data <> JNull ->
        answer
        = Return (join LF
            [ "✅ **Report submitted for " ++ package_name ++ "**";
              "  Report ID: " ++ ToString_opt (field data "report_id");
              "  Findings created: "
                ++ ToString (coalesce (optional_length (field data "findings_created"))
                               (JNum 0));
              "  Deduplicated: "
                ++ ToString (coalesce (optional_length (field data "findings_deduplicated"))
                               (JNum 0));
              "  View: https://agentaudit.dev/packages/" ++ package_name ])
        /\ (forall created,
              field data "findings_created" = Some (JArr created) ->
              ToString (coalesce (optional_length (field data "findings_created")) (JNum 0))
              = string_of_Z (Z.of_nat (List.length created)))
        /\ (field data "findings_created" = None ->
              ToString (coalesce (optional_length (field data "findings_created")) (JNum 0))
              = "0")).
Proof.
  intros sent answer. subst answer. unfold submit_report. fold sent.
  split; [apply try_catch_total; eauto|].
  split; [intros message ->; reflexivity|].
  split; [intros status statusText message ->; reflexivity|].
  split.
  - intros status statusText data -> Hok. simpl bind. rewrite Hok. reflexivity.
  - intros status statusText data -> Hok Hdata. simpl bind. rewrite Hok.
    simpl negb. cbv iota. rewrite !(get_field data) by assumption.
    split; [reflexivity|]. split.
    + intros created ->. reflexivity.
    + intros ->. reflexivity.
Qed.

End Posting.

(** *** The default configuration path *)

(** X26. What the default path depends on: on Windows only on [APPDATA],
    never on the home directory; elsewhere only on the home directory,
    which is [HOME] when that is set and [USERPROFILE] only when it is
    not. *)
Theorem default_path_environment (env env' : Env) :
  platform env = platform env' ->
  (platform env = "win32" ->
     getenv env "APPDATA" = getenv env' "APPDATA" ->
     getDefaultConfigPath env = getDefaultConfigPath env')
  /\ (platform env <> "win32" ->
      getenv env "HOME" = getenv env' "HOME" ->
      (getenv env "HOME" = None ->
         getenv env "USERPROFILE" = getenv env' "USERPROFILE") ->
      getDefaultConfigPath env = getDefaultConfigPath env').
Proof.
  intros Hp. unfold getDefaultConfigPath. rewrite <- Hp. split.
  - intros Hw Ha. rewrite Hw. simpl. rewrite Ha. reflexivity.
  - intros Hw Hh Hu.
    assert (E : or_else (getenv env "HOME") (or_else (getenv env "USERPROFILE") "")
                = or_else (getenv env' "HOME") (or_else (getenv env' "USERPROFILE") "")).
    { rewrite <- Hh. destruct (getenv env "HOME"); [reflexivity|].
      rewrite (Hu eq_refl). reflexivity. }
    rewrite E.
    destruct (String.eqb (platform env) "darwin"); [reflexivity|].
    destruct (String.eqb_spec (platform env) "win32") as [H | _]; [contradiction|].
    reflexivity.
Qed.

End MoreFacts.

(** ** The further properties on concrete runs *)

Lemma extractPackages_no_duplicates_witness :
  extractPackagesFromText (B := Reference.reference_builtins) config_repeats_text
  = Return ["x"; "a"; "b"]
  /\ NoDup ["x"; "a"; "b"]
  /\ collectPackages config_repeats_json = Return ["x"; "a"; "b"; "x"; "a"].
Proof.
  assert (E : extractPackagesFromText (B := Reference.reference_builtins)
                config_repeats_text = Return ["x"; "a"; "b"])
    by (vm_compute; reflexivity).
  split; [exact E|].
  destruct (extractPackages_no_duplicates (B := Reference.reference_builtins) _ _ E)
    as (Hnd & _).
  split; [exact Hnd | reflexivity].
Defined.

Lemma server_keys_are_candidates_witness :
  JSON_parse (Builtins := Reference.reference_builtins) config_repeats_text
  = Return config_repeats_json
  /\ extractPackagesFromText (B := Reference.reference_builtins) config_repeats_text
     = Return ["x"; "a"; "b"]
  /\ (forall k, In k ["b"; "a"] -> In k ["x"; "a"; "b"])
  /\ (forall x, In x ["x"; "a"; "b"] ->
        In x ["b"; "a"]
        \/ (arg_is_candidate x = true
            /\ launch_argument
                 [("b", JObj [("args", JArr [JStr "x"; JStr "a"])]);
                  ("a", JObj [("args", JArr [JStr "x"])])] x)).
Proof.
  assert (P : JSON_parse (Builtins := Reference.reference_builtins) config_repeats_text
              = Return config_repeats_json) by (vm_compute; reflexivity).
  assert (E : extractPackagesFromText (B := Reference.reference_builtins)
                config_repeats_text = Return ["x"; "a"; "b"])
    by (vm_compute; reflexivity).
  split; [exact P|]. split; [exact E|].
  exact (server_keys_are_candidates (B := Reference.reference_builtins)
           config_repeats_text config_repeats_json
           [("b", JObj [("args", JArr [JStr "x"; JStr "a"])]);
            ("a", JObj [("args", JArr [JStr "x"])])]
           ["x"; "a"; "b"] P eq_refl E).
Defined.

Lemma server_map_precedence_witness :
  config_fetch_entry <> JNull
  /\ collectPackages (JObj [("mcp_servers", JObj [("fetch", config_fetch_entry)])])
     = collectPackages config_fetch_json.
Proof.
  split; [discriminate|].
  refine (proj2 (server_map_precedence
                   [("mcp_servers", JObj [("fetch", config_fetch_entry)])]
                   (JObj [("fetch", config_fetch_entry)]) _) (or_introl eq_refl) eq_refl).
  discriminate.
Defined.

Lemma scan_config_nothing_to_scan_witness :
  JSON_parse (Builtins := Reference.reference_builtins) config_empty_second_text
  = Return (JObj [("mcp_servers", JObj [])])
  /\ Object_entries (server_map (JObj [("mcp_servers", JObj [])])) = Return []
  /\ scan_config (B := Reference.reference_builtins)
       (env_with example_remote config_empty_second_text) None
     = Return "No packages found in config."
  /\ scan_config (B := Reference.reference_builtins)
       (env_with example_remote config_no_map_text) None
     = Return "No packages found in config.".
Proof.
  assert (P : JSON_parse (Builtins := Reference.reference_builtins) config_empty_second_text
              = Return (JObj [("mcp_servers", JObj [])]))
    by (vm_compute; reflexivity).
  assert (Q : JSON_parse (Builtins := Reference.reference_builtins) config_no_map_text
              = Return (JObj [("servers", JObj [("fetch", JObj [])])]))
    by (vm_compute; reflexivity).
  split; [exact P|]. split; [reflexivity|]. split.
  - refine (scan_config_nothing_to_scan (B := Reference.reference_builtins)
              (env_with example_remote config_empty_second_text) None
              config_empty_second_text _ eq_refl eq_refl P _ _).
    + discriminate.
    + right. reflexivity.
  - refine (scan_config_nothing_to_scan (B := Reference.reference_builtins)
              (env_with example_remote config_no_map_text) None config_no_map_text
              _ eq_refl eq_refl Q _ _).
    + discriminate.
    + left. split; left; reflexivity.
Defined.


Lemma formatResult_lines_shape_witness :
  formatResult_lines (B := Reference.reference_builtins) record_fetch
  = Return [ "🔴 **fetch** (unknown)"; "  Trust Score: 20/100"; "  Risk Score: 80/100";
             "  Verdict: UNSAFE"; "  Findings: 3 (from 1 audit)";
             "  Details: https://agentaudit.dev/packages/fetch" ]
  /\ hd "" [ "🔴 **fetch** (unknown)"; "  Trust Score: 20/100"; "  Risk Score: 80/100";
             "  Verdict: UNSAFE"; "  Findings: 3 (from 1 audit)";
             "  Details: https://agentaudit.dev/packages/fetch" ]
     = format_header (B := Reference.reference_builtins) record_fetch.
Proof.
  split; [reflexivity|].
  exact (proj1 (formatResult_lines_shape (B := Reference.reference_builtins)
                  record_fetch _ eq_refl)).
Defined.

Lemma check_package_failed_lookup_witness :
  skill_request (B := Reference.reference_builtins) (env_with down_remote "") "pkg"
  = Throw "fetch failed"
  /\ check_package (B := Reference.reference_builtins) (env_with down_remote "") "pkg"
     = Return (failure_text "pkg" "fetch failed").
Proof.
  split; [reflexivity|].
  refine (proj1 (check_package_failed_lookup (B := Reference.reference_builtins)
                   (env_with down_remote "") "pkg") "fetch failed" eq_refl _).
  discriminate.
Defined.

Lemma check_package_defaults_witness :
  skill_request (B := Reference.reference_builtins) (env_with foreign_remote "") "pkg"
  = Return (JObj [("message", JStr "hello")])
  /\ (forall k, In k skill_members -> nullish (field (JObj [("message", JStr "hello")]) k))
  /\ check_package (B := Reference.reference_builtins) (env_with foreign_remote "") "pkg"
     = Return (join LF
         [ "❓ **pkg** (unknown)"; "  Trust Score: N/A/100"; "  Risk Score: N/A/100";
           "  Verdict: UNKNOWN"; "  Findings: 0 (from 0 audits)";
           "  Details: https://agentaudit.dev/packages/pkg" ]).
Proof.
  assert (R : skill_request (B := Reference.reference_builtins)
                (env_with foreign_remote "") "pkg"
              = Return (JObj [("message", JStr "hello")])) by (vm_compute; reflexivity).
  assert (N : forall k, In k skill_members ->
                nullish (field (JObj [("message", JStr "hello")]) k)).
  { intros k Hk. unfold skill_members in Hk. simpl in Hk.
    repeat (destruct Hk as [<- | Hk]; [left; reflexivity|]). contradiction. }
  split; [exact R|]. split; [exact N|].
  exact (check_package_defaults (B := Reference.reference_builtins)
           (env_with foreign_remote "") "pkg" _ R eq_refl N).
Defined.


Lemma scan_report_aborts_witness :
  In "stale" ["fetch"; "stale"]
  /\ (exists r,
        fetchSkill (B := Reference.reference_builtins) (env_with stale_remote "") "stale"
        = Return r
        /\ formatResult (B := Reference.reference_builtins) r = Throw "Invalid time value")
  /\ exists message,
       scan_report (B := Reference.reference_builtins) (env_with stale_remote "")
         "config.json" ["fetch"; "stale"]
       = Throw message.
Proof.
  assert (R : fetchSkill (B := Reference.reference_builtins) (env_with stale_remote "")
                "stale"
              = Return (success_record "stale"
                  (JObj [("slug", JStr "stale"); ("latest_risk_score", JNum 10);
                         ("last_audited_at", JStr "yesterday")])))
    by (vm_compute; reflexivity).
  split; [right; left; reflexivity|]. split.
  - eexists. split; [exact R | reflexivity].
  - exact (scan_report_aborts (B := Reference.reference_builtins)
             (env_with stale_remote "") "config.json" ["fetch"; "stale"] "stale" _
             "Invalid time value" (or_intror (or_introl eq_refl)) R eq_refl).
Defined.

Lemma apiFetch_non_success_witness :
  fetch example_env (API_BASE ++ "/skills/nonexistent")
  = Response 404 "<!DOCTYPE html><html><body>Not found</body></html>"
  /\ res_ok 404 = false
  /\ apiFetch (B := Reference.reference_builtins) example_env
       (API_BASE ++ "/skills/nonexistent")
     = Return JNull.
Proof.
  split; [reflexivity|]. split; [reflexivity|].
  destruct (apiFetch_non_success (B := Reference.reference_builtins) example_env
              (API_BASE ++ "/skills/nonexistent") 404
              "<!DOCTYPE html><html><body>Not found</body></html>" eq_refl eq_refl)
    as (_ & H & _).
  apply H. exists " html><html><body>Not found</body></html>". left. reflexivity.
Defined.



Lemma search_packages_malformed_entry_witness :
  apiFetch (B := Reference.reference_builtins) (env_with odd_remote "")
    (API_BASE ++ "/skills")
  = Return (JArr [JObj [("slug", JStr "crewai")]; JNull; JObj [("slug", JStr "fetch")]])
  /\ exists message,
       search_packages (B := Reference.reference_builtins) (env_with odd_remote "")
         "crew" (Some 1)
       = Return ("❌ Search failed: " ++ message).
Proof.
  assert (F : apiFetch (B := Reference.reference_builtins) (env_with odd_remote "")
                (API_BASE ++ "/skills")
              = Return (JArr [JObj [("slug", JStr "crewai")]; JNull;
                              JObj [("slug", JStr "fetch")]]))
    by (vm_compute; reflexivity).
  split; [exact F|].
  apply (search_packages_malformed_entry (B := Reference.reference_builtins)
           (env_with odd_remote "") "crew" (Some 1) _ JNull F).
  - right. left. reflexivity.
  - left. reflexivity.
Defined.


Lemma scan_sort_keeps_lookup_order_witness :
  Forall (fun r => is_score (latest_risk_score r) = true)
    [record_not_found; record_fetch; record_empty_error]
  /\ filter (fun r => risk_key r =? -1)
       (Array_sort (by_risk_desc (B := Reference.reference_builtins))
          [record_not_found; record_fetch; record_empty_error])
     = [record_not_found; record_empty_error].
Proof.
  assert (T : Forall (fun r => is_score (latest_risk_score r) = true)
                [record_not_found; record_fetch; record_empty_error])
    by (repeat constructor).
  split; [exact T|].
  exact (scan_sort_keeps_lookup_order (B := Reference.reference_builtins) _ (-1) T).
Defined.

Lemma scan_report_all_lookups_fail_witness :
  Forall (lookup_fails (B := Reference.reference_builtins) (env_with down_remote ""))
    ["a"; "b"]
  /\ scan_report (B := Reference.reference_builtins) (env_with down_remote "")
       "config.json" ["a"; "b"]
     = Return (join (LF ++ LF)
         [ "🔍 Scanned config.json";
           "📦 2 packages checked | 0 with elevated risk" ++ LF;
           failure_text "a" "fetch failed";
           failure_text "b" "fetch failed" ]).
Proof.
  assert (F : Forall (lookup_fails (B := Reference.reference_builtins)
                        (env_with down_remote "")) ["a"; "b"]).
  { repeat constructor; discriminate. }
  split; [exact F|].
  exact (scan_report_all_lookups_fail (B := Reference.reference_builtins)
           (env_with down_remote "") "config.json" ["a"; "b"] F).
Defined.

Lemma get_stats_missing_counts_witness :
  apiFetch (B := Reference.reference_builtins) (env_with foreign_remote "")
    (API_BASE ++ "/health")
  = Return (JObj [("status", JStr "ok"); ("db", JObj [("uptime", JNum 5)])])
  /\ get_stats (B := Reference.reference_builtins) (env_with foreign_remote "")
     = Return (join LF
         [ "📊 **AgentAudit Stats**"; "  Status: ok"; "  Total Findings: ?";
           "  Total Packages: ?"; "  Registered Agents: ?";
           "  Website: https://agentaudit.dev";
           "  API: https://agentaudit.dev/api/health" ])
  /\ get_stats (B := Reference.reference_builtins) (env_with odd_remote "")
     = Return (join LF
         [ "📊 **AgentAudit Stats**"; "  Status: ok"; "  Total Findings: ?";
           "  Total Packages: ?"; "  Registered Agents: ?";
           "  Website: https://agentaudit.dev";
           "  API: https://agentaudit.dev/api/health" ]).
Proof.
  assert (F : apiFetch (B := Reference.reference_builtins) (env_with foreign_remote "")
                (API_BASE ++ "/health")
              = Return (JObj [("status", JStr "ok"); ("db", JObj [("uptime", JNum 5)])]))
    by (vm_compute; reflexivity).
  assert (G : apiFetch (B := Reference.reference_builtins) (env_with odd_remote "")
                (API_BASE ++ "/health")
              = Return (JObj [("status", JStr "ok")])) by (vm_compute; reflexivity).
  split; [exact F|]. split.
  - refine (proj1 (get_stats_missing_counts (B := Reference.reference_builtins)
                     (env_with foreign_remote "") _ F eq_refl _)).
    intros k Hk. unfold count_members in Hk. simpl in Hk.
    repeat (destruct Hk as [<- | Hk]; [left; reflexivity|]). contradiction.
  - refine (proj1 (get_stats_missing_counts (B := Reference.reference_builtins)
                     (env_with odd_remote "") _ G eq_refl _)).
    intros k Hk. left. reflexivity.
Defined.


Lemma submit_report_answers_witness :
  submit_report (S := ReferencePrinter.reference_serializer) example_post
    "wrong-key" "pkg" None None 50 "warn" None None
  = Return ("❌ Submit failed: {" ++ quoted "error" ++ ":" ++ quoted "Invalid API key" ++ "}").
Proof.
  destruct (submit_report_answers (S := ReferencePrinter.reference_serializer)
              example_post "wrong-key" "pkg" None None 50 "warn" None None)
    as (_ & _ & _ & H & _).
  exact (H 401 "Unauthorized" (JObj [("error", JStr "Invalid API key")]) eq_refl eq_refl).
Defined.

Lemma default_path_environment_witness :
  platform (windows_env "C:/Users/u") = platform (windows_env "D:/elsewhere")
  /\ getDefaultConfigPath (B := Reference.reference_builtins) (windows_env "C:/Users/u")
     = getDefaultConfigPath (B := Reference.reference_builtins) (windows_env "D:/elsewhere").
Proof.
  split; [reflexivity|].
  exact (proj1 (default_path_environment (B := Reference.reference_builtins)
                  (windows_env "C:/Users/u") (windows_env "D:/elsewhere") eq_refl)
               eq_refl eq_refl).
Defined.

(** A 404 page that begins with a lower-case doctype is an error, not "not
    found", and a page that begins with an upper-case html tag under a
    success status is handed to the JSON parser. *)
Lemma html_body_is_not_found_counterexample :
  fetch (env_with lowercase_remote "") (API_BASE ++ "/skills/nonexistent")
  = Response 404 lowercase_page
  /\ begins_with_html lowercase_page = true
  /\ apiFetch (B := Reference.reference_builtins) (env_with lowercase_remote "")
       (API_BASE ++ "/skills/nonexistent")
     = Throw ("HTTP 404: " ++ lowercase_page)
  /\ begins_with_html uppercase_page = true
  /\ apiFetch (B := Reference.reference_builtins) (env_with lowercase_remote "")
       (API_BASE ++ "/skills/welcome")
     = JSON_parse (Builtins := Reference.reference_builtins) uppercase_page
  /\ ~ html_body_is_not_found (B := Reference.reference_builtins)
         (env_with lowercase_remote "") (API_BASE ++ "/skills/nonexistent").
Proof.
  split; [reflexivity|]. split; [reflexivity|].
  assert (E : apiFetch (B := Reference.reference_builtins) (env_with lowercase_remote "")
                (API_BASE ++ "/skills/nonexistent")
              = Throw ("HTTP 404: " ++ lowercase_page)) by (vm_compute; reflexivity).
  split; [exact E|]. split; [reflexivity|]. split; [vm_compute; reflexivity|].
  intros H. specialize (H 404 lowercase_page eq_refl eq_refl).
  rewrite E in H. discriminate H.
Qed.
